(** * ksm_preload: the interposition layer of [libksm_preload.c]

    A shallow embedding of [src/libksm_preload.c] and the properties of
    its lazy initialiser, its merge policy and its five wrappers.

    The C file is written for glibc on Linux (LP64): [size_t],
    [uintptr_t] and [unsigned long] are 64-bit unsigned, [int] is 32-bit
    and [long] is 64-bit signed.  Integers are modelled as [Z] with the
    wrap-around of the unsigned types written out ([to_size_t]).

    The program talks to the outside through libc and the kernel
    ([getenv], [strtol], [dlsym], [dlerror], [sysconf], [madvise],
    [pthread_mutex_lock]) and through the five function pointers it
    delegates to.  These are not part of the repository: the pure ones
    ([strtol], the error-checking mutex) are modelled after their
    documented behaviour, the others are oracles of a [host] record, and
    every call that leaves the library is recorded in a trace.

    The [DEBUG] build only adds [fprintf]s and is not modelled. *)

From Stdlib Require Import ZArith String Ascii List Bool Lia.
From Stdlib Require Import DecimalString DecimalN.
Import ListNotations.
Open Scope string_scope.
Open Scope Z_scope.

(** ** Machine integers *)

(** Conversion to [size_t] / [uintptr_t] / [unsigned long]. *)
Definition to_size_t (z : Z) : Z := z mod 2 ^ 64.

(** The values a [size_t] (or a pointer) can hold. *)
Definition in_size_t (z : Z) : Prop := 0 <= z < 2 ^ 64.

Definition INT_MAX : Z := 2147483647.
Definition LONG_MAX : Z := 9223372036854775807.
Definition LONG_MIN : Z := -9223372036854775808.

(** C truth value of an integer expression. *)
Definition nonzero (z : Z) : bool := negb (z =? 0).

(** ** Constants of the system headers

    [<sys/mman.h>] and [<dlfcn.h>] are not part of the repository; the
    model takes their constants as parameters. *)
Record platform : Type := {
  MAP_PRIVATE : Z;
  MAP_ANONYMOUS : Z;
  MAP_GROWSDOWN : Z;
  MAP_STACK : Z;
  MADV_MERGEABLE : Z;
  MREMAP_FIXED : Z;
  RTLD_NEXT : Z
}.

(** The values of Linux on x86-64, used for the concrete runs. *)
Definition linux : platform := {|
  MAP_PRIVATE := 0x02;
  MAP_ANONYMOUS := 0x20;
  MAP_GROWSDOWN := 0x0100;
  MAP_STACK := 0x20000;
  MADV_MERGEABLE := 12;
  MREMAP_FIXED := 2;
  RTLD_NEXT := -1
|}.

(** ** The host: loader, environment and the delegated primitives

    [H] is the state of whatever implements the real allocation
    primitives.  A function pointer is the address it holds; [run_*]
    give what calling the code at that address does. *)
Record host (H : Type) : Type := {
  (* addresses of __libc_calloc, __libc_malloc, __mmap, __libc_realloc *)
  libc_calloc : Z;
  libc_malloc : Z;
  libc_mmap : Z;
  libc_realloc : Z;
  (* getenv: None is the NULL result *)
  getenv : string -> option string;
  (* dlsym (handle, symbol): 0 is the NULL result *)
  dlsym : Z -> string -> Z;
  (* the text dlerror () returns after the lookup of a symbol failed *)
  dlerror : string -> string;
  (* sysconf (_SC_PAGESIZE) *)
  sysconf_pagesize : Z;
  run_calloc : Z -> Z -> Z -> H -> Z * H;
  run_malloc : Z -> Z -> H -> Z * H;
  run_mmap : Z -> Z -> Z -> Z -> Z -> Z -> Z -> H -> Z * H;
  (* the last list holds the variadic arguments of the call *)
  run_mremap : Z -> Z -> Z -> Z -> Z -> list Z -> H -> Z * H;
  run_realloc : Z -> Z -> Z -> H -> Z * H
}.

Arguments libc_calloc {H} _.
Arguments libc_malloc {H} _.
Arguments libc_mmap {H} _.
Arguments libc_realloc {H} _.
Arguments getenv {H} _ _.
Arguments dlsym {H} _ _ _.
Arguments dlerror {H} _ _.
Arguments sysconf_pagesize {H} _.
Arguments run_calloc {H} _ _ _ _ _.
Arguments run_malloc {H} _ _ _ _.
Arguments run_mmap {H} _ _ _ _ _ _ _ _ _.
Arguments run_mremap {H} _ _ _ _ _ _ _ _.
Arguments run_realloc {H} _ _ _ _ _.

(** ** Process-wide state *)

(** The anonymous struct [globals]. *)
Record globals_t : Type := {
  ext_calloc : Z;
  ext_malloc : Z;
  ext_mmap : Z;
  ext_mremap : Z;
  ext_realloc : Z;
  page_size : Z;
  merge_threshold : Z
}.

(** Calls that leave the library, most recent first. *)
Inductive event : Type :=
| EvDlsym (handle : Z) (symbol : string)
| EvSysconf
| EvGetenv (name : string)
| EvMadvise (addr length advice : Z)
| EvCalloc (fn nmemb size : Z)
| EvMalloc (fn size : Z)
| EvMmap (fn start length prot flags fd offset : Z)
| EvMremap (fn old_address old_length new_length flags : Z) (extra : list Z)
| EvRealloc (fn addr size : Z).

(** [globals], the two statics of [lazily_setup] (the owner of the
    error-checking mutex, if it is locked, and [setup_done]), the state
    of the real allocator and the trace. *)
Record state (H : Type) : Type := {
  globals : globals_t;
  setup_done : bool;
  mutex : option nat;
  heap : H;
  trace : list event
}.

Arguments globals {H} _.
Arguments setup_done {H} _.
Arguments mutex {H} _.
Arguments heap {H} _.
Arguments trace {H} _.

(** Ways the process dies other than by [exit]. *)
Inductive fault : Type :=
| DivisionByZero      (* [x / 0] on unsigned long *)
| AssertionFailed     (* [assert] aborted *)
| NullCall            (* call through a null function pointer *)
| VaArgMissing.       (* [va_arg] with no argument left *)

(** What a call does: it returns, the process exits ([error (1, ...)]),
    the process dies, or the thread waits for a mutex another thread
    holds. *)
Inductive outcome (H A : Type) : Type :=
| Ret (a : A) (s : state H)
| Exit (status : Z) (msg : string) (s : state H)
| Fault (why : fault) (s : state H)
| Block (s : state H).

Arguments Ret {H A} _ _.
Arguments Exit {H A} _ _ _.
Arguments Fault {H A} _ _.
Arguments Block {H A} _.

Definition M (H A : Type) : Type := state H -> outcome H A.

Definition ret {H A} (a : A) : M H A := fun s => Ret a s.

Definition bind {H A B} (m : M H A) (k : A -> M H B) : M H B :=
  fun s =>
    match m s with
    | Ret a s' => k a s'
    | Exit st msg s' => Exit st msg s'
    | Fault w s' => Fault w s'
    | Block s' => Block s'
    end.

Declare Scope ksm_scope.
Delimit Scope ksm_scope with ksm.
Notation "x <- m ;; k" := (bind m (fun x => k))
  (at level 61, m at next level, right associativity) : ksm_scope.
Notation "m ;;; k" := (bind m (fun _ => k))
  (at level 61, right associativity) : ksm_scope.

Local Open Scope ksm_scope.

(** State accessors. *)
Definition get_globals {H} : M H globals_t := fun s => Ret (globals s) s.

Definition set_globals {H} (g : globals_t) : M H unit :=
  fun s => Ret tt {| globals := g; setup_done := setup_done s;
                     mutex := mutex s; heap := heap s; trace := trace s |}.

(** [globals.page_size = ps]. *)
Definition set_page_size {H} (ps : Z) : M H unit :=
  g <- get_globals ;;
  set_globals {| ext_calloc := ext_calloc g; ext_malloc := ext_malloc g;
                 ext_mmap := ext_mmap g; ext_mremap := ext_mremap g;
                 ext_realloc := ext_realloc g;
                 page_size := ps;
                 merge_threshold := merge_threshold g |}.

(** [globals.merge_threshold = t]. *)
Definition set_merge_threshold {H} (t : Z) : M H unit :=
  g <- get_globals ;;
  set_globals {| ext_calloc := ext_calloc g; ext_malloc := ext_malloc g;
                 ext_mmap := ext_mmap g; ext_mremap := ext_mremap g;
                 ext_realloc := ext_realloc g;
                 page_size := page_size g;
                 merge_threshold := t |}.

(** The five assignments that end [setup]. *)
Definition set_ext {H} (c m mm mr r : Z) : M H unit :=
  g <- get_globals ;;
  set_globals {| ext_calloc := c; ext_malloc := m;
                 ext_mmap := mm; ext_mremap := mr;
                 ext_realloc := r;
                 page_size := page_size g;
                 merge_threshold := merge_threshold g |}.

Definition set_setup_done {H} (b : bool) : M H unit :=
  fun s => Ret tt {| globals := globals s; setup_done := b;
                     mutex := mutex s; heap := heap s; trace := trace s |}.

Definition set_mutex {H} (o : option nat) (s : state H) : state H :=
  {| globals := globals s; setup_done := setup_done s;
     mutex := o; heap := heap s; trace := trace s |}.

Definition record {H} (e : event) (s : state H) : state H :=
  {| globals := globals s; setup_done := setup_done s;
     mutex := mutex s; heap := heap s; trace := e :: trace s |}.

Definition set_heap {H} (h : H) (s : state H) : state H :=
  {| globals := globals s; setup_done := setup_done s;
     mutex := mutex s; heap := h; trace := trace s |}.

(** ** [strtol] in base 10

    ISO C: skip white space, take an optional sign, then the longest run
    of decimal digits; with no digit there is no conversion, the result
    is 0 and the end pointer is the start of the string; a value out of
    the range of [long] is clamped to [LONG_MIN] or [LONG_MAX].  The
    second component is the string the end pointer points to. *)
Definition isspace (c : ascii) : bool :=
  let n := Z.of_N (N_of_ascii c) in
  (n =? 32) || ((9 <=? n) && (n <=? 13)).

Definition digit_of (c : ascii) : option Z :=
  let n := Z.of_N (N_of_ascii c) in
  if (48 <=? n) && (n <=? 57) then Some (n - 48) else None.

Fixpoint skip_spaces (s : string) : string :=
  match s with
  | String c r => if isspace c then skip_spaces r else s
  | EmptyString => s
  end.

Fixpoint read_digits (acc : Z) (s : string) : Z * string :=
  match s with
  | String c r =>
      match digit_of c with
      | Some d => read_digits (10 * acc + d) r
      | None => (acc, s)
      end
  | EmptyString => (acc, s)
  end.

Definition clamp_long (z : Z) : Z :=
  if z <? LONG_MIN then LONG_MIN
  else if LONG_MAX <? z then LONG_MAX
  else z.

(** The sign and what follows it. *)
Definition read_sign (s : string) : bool * string :=
  match s with
  | String "-" r => (true, r)
  | String "+" r => (false, r)
  | _ => (false, s)
  end.

Definition starts_with_digit (s : string) : bool :=
  match s with
  | String c _ => match digit_of c with Some _ => true | None => false end
  | EmptyString => false
  end.

Definition strtol (nptr : string) : Z * string :=
  let '(neg, body) := read_sign (skip_spaces nptr) in
  if starts_with_digit body then
    let '(v, rest) := read_digits 0 body in
    (clamp_long (if neg then - v else v), rest)
  else (0, nptr).

(** [*p != '\0'] for a pointer into a C string. *)
Definition not_at_nul (p : string) : bool :=
  match p with
  | EmptyString => false
  | String _ _ => true
  end.

(** The body of [get_int_from_environment] once [getenv] has returned
    [var_string] ([None] for NULL). *)
Definition parse_int (var_string : option string) : Z :=
  match var_string with
  | None => -1
  | Some str =>
      let '(var_value, var_string_end) := strtol str in
      if not_at_nul var_string_end || (var_value <? 0) then -1
      else if INT_MAX <? var_value then INT_MAX
      else var_value
  end.

Definition MERGE_THRESHOLD_ENV_NAME : string := "KSMP_MERGE_THRESHOLD".

(** The five symbols [setup] resolves, in its order. *)
Definition hooked_symbols : list string :=
  ["calloc"; "malloc"; "mmap"; "mremap"; "realloc"].

(** The message [error (1, 0, "failed to load %s : %s", ...)] prints
    after the program name. *)
Definition load_failure (symbol reason : string) : string :=
  ("failed to load " ++ symbol ++ " : " ++ reason)%string.

(** The mutex of [lazily_setup] is an error-checking one:
    [pthread_mutex_lock] returns EDEADLK when the calling thread already
    owns it, and waits when another thread does. *)
Inductive lock_result : Type := Locked | Edeadlk.

Definition is_EDEADLK (r : lock_result) : bool :=
  match r with Edeadlk => true | Locked => false end.

Definition pthread_mutex_lock {H} (tid : nat) : M H lock_result :=
  fun s =>
    match mutex s with
    | None => Ret Locked (set_mutex (Some tid) s)
    | Some owner => if Nat.eqb owner tid then Ret Edeadlk s else Block s
    end.

(** Unlocking a mutex the thread does not own fails with EPERM and
    changes nothing; the caller ignores the result. *)
Definition pthread_mutex_unlock {H} (tid : nat) : M H unit :=
  fun s =>
    match mutex s with
    | Some owner =>
        if Nat.eqb owner tid then Ret tt (set_mutex None s) else Ret tt s
    | None => Ret tt s
    end.

(** ** A host for the concrete runs

    The real allocator is a bump allocator whose state is the next free
    address; requests of 2^40 bytes or more fail.  [env] is the value of
    KSMP_MERGE_THRESHOLD and [missing] lists the symbols the loader does
    not find. *)
Definition string_mem (x : string) (l : list string) : bool :=
  existsb (String.eqb x) l.

Definition bump (size : Z) (brk : Z) : Z * Z :=
  if 2 ^ 40 <=? size then (0, brk) else (brk, brk + size).

Definition demo_host (env : option string) (missing : list string)
  : host Z := {|
  libc_calloc := 0x401000;
  libc_malloc := 0x401100;
  libc_mmap := 0x401200;
  libc_realloc := 0x401300;
  getenv := fun name =>
    if String.eqb name "KSMP_MERGE_THRESHOLD" then env else None;
  dlsym := fun _ symbol =>
    if string_mem symbol missing then 0
    else 0x7f0000000000 + Z.of_nat (String.length symbol);
  dlerror := fun symbol => ("undefined symbol: " ++ symbol)%string;
  sysconf_pagesize := 4096;
  run_calloc := fun _ nmemb size => bump (nmemb * size);
  run_malloc := fun _ size => bump size;
  run_mmap := fun _ _ length _ _ _ _ => bump length;
  run_mremap := fun _ old_address _ new_length _ extra brk =>
    match extra with
    | target :: _ => (target, brk)
    | [] => bump new_length brk
    end;
  run_realloc := fun _ _ size => bump size
|}.

Section Library.

Context {H : Type}.
Variable P : platform.
Variable E : host H.

Local Open Scope ksm_scope.

(** The initial value of [globals]. *)
Definition initial_globals : globals_t := {|
  ext_calloc := libc_calloc E;
  ext_malloc := libc_malloc E;
  ext_mmap := libc_mmap E;
  ext_mremap := 0;
  ext_realloc := libc_realloc E;
  page_size := 4096;
  merge_threshold := 4096 * 8
|}.

(** The process before its first call into the library. *)
Definition initial_state (h : H) : state H := {|
  globals := initial_globals;
  setup_done := false;
  mutex := None;
  heap := h;
  trace := []
|}.

(** *** SETUP *)

Definition get_int_from_environment (var_name : string) : M H Z :=
  fun s =>
    Ret (parse_int (getenv E var_name)) (record (EvGetenv var_name) s).

Definition xdlsym (handle : Z) (symbol : string) : M H Z :=
  fun s =>
    let s := record (EvDlsym handle symbol) s in
    let res := dlsym E handle symbol in
    if nonzero res then Ret res s
    else Exit 1 (load_failure symbol (dlerror E symbol)) s.

Definition read_page_size : M H Z :=
  fun s => Ret (to_size_t (sysconf_pagesize E)) (record EvSysconf s).

Definition setup : M H unit :=
  dl_calloc <- xdlsym (RTLD_NEXT P) "calloc" ;;
  dl_malloc <- xdlsym (RTLD_NEXT P) "malloc" ;;
  dl_mmap <- xdlsym (RTLD_NEXT P) "mmap" ;;
  dl_mremap <- xdlsym (RTLD_NEXT P) "mremap" ;;
  dl_realloc <- xdlsym (RTLD_NEXT P) "realloc" ;;
  ps <- read_page_size ;;
  set_page_size ps ;;;
  env_merge_treshold <- get_int_from_environment MERGE_THRESHOLD_ENV_NAME ;;
  (if 0 <=? env_merge_treshold
   then set_merge_threshold env_merge_treshold
   else ret tt) ;;;
  set_ext dl_calloc dl_malloc dl_mmap dl_mremap dl_realloc.

(** *** UTILITIES FOR WRAPPERS *)

Definition lazily_setup (tid : nat) : M H unit :=
  fun s =>
    if setup_done s then Ret tt s
    else
      (r <- pthread_mutex_lock tid ;;
       if is_EDEADLK r then ret tt
       else
         (fun s1 =>
            if negb (setup_done s1)
            then (setup ;;; set_setup_done true) s1
            else Ret tt s1) ;;;
         pthread_mutex_unlock tid) s.

(** The test on [flags] in [merge_if_profitable]. *)
Definition flags_allow (flags : Z) : bool :=
  (flags =? -1)
  || (nonzero (Z.land flags (MAP_PRIVATE P))
      && nonzero (Z.land flags (MAP_ANONYMOUS P))
      && negb (nonzero (Z.land flags (MAP_GROWSDOWN P)))
      && negb (nonzero (Z.land flags (MAP_STACK P)))).

(** [page_address] and [new_length] as [merge_if_profitable] computes
    them. *)
Definition page_address_of (g : globals_t) (address : Z) : Z :=
  to_size_t (address / page_size g * page_size g).

Definition new_length_of (g : globals_t) (address length : Z) : Z :=
  to_size_t (length + to_size_t (address - page_address_of g address)).

Definition merge_if_profitable (address length flags : Z) : M H unit :=
  fun s =>
    let g := globals s in
    let raw_address := address in
    if page_size g =? 0 then Fault DivisionByZero s
    else
      let page_address := page_address_of g raw_address in
      if negb (page_address <=? raw_address) then Fault AssertionFailed s
      else
        let new_length := new_length_of g raw_address length in
        if (new_length <=? to_size_t (merge_threshold g)) || (address =? 0)
        then Ret tt s
        else if flags_allow flags
        then Ret tt (record (EvMadvise page_address new_length
                                       (MADV_MERGEABLE P)) s)
        else Ret tt s.

(** *** Calls through the pointers of [globals] *)

Definition call (fn : Z) (e : event) (run : H -> Z * H) : M H Z :=
  fun s =>
    if fn =? 0 then Fault NullCall s
    else
      let '(res, h) := run (heap s) in
      Ret res (record e (set_heap h s)).

(** *** WRAPPERS *)

Definition calloc (tid : nat) (nmemb size : Z) : M H Z :=
  lazily_setup tid ;;;
  g <- get_globals ;;
  res <- call (ext_calloc g) (EvCalloc (ext_calloc g) nmemb size)
              (run_calloc E (ext_calloc g) nmemb size) ;;
  merge_if_profitable res size (-1) ;;;
  ret res.

Definition malloc (tid : nat) (size : Z) : M H Z :=
  lazily_setup tid ;;;
  g <- get_globals ;;
  res <- call (ext_malloc g) (EvMalloc (ext_malloc g) size)
              (run_malloc E (ext_malloc g) size) ;;
  merge_if_profitable res size (-1) ;;;
  ret res.

Definition mmap (tid : nat) (addr length prot flags fd offset : Z) : M H Z :=
  lazily_setup tid ;;;
  g <- get_globals ;;
  res <- call (ext_mmap g)
              (EvMmap (ext_mmap g) addr length prot flags fd offset)
              (run_mmap E (ext_mmap g) addr length prot flags fd offset) ;;
  merge_if_profitable res length flags ;;;
  ret res.

(** [va_arg (extra_args, void * )] on the variadic arguments of the
    call. *)
Definition va_arg (extra_args : list Z) : M H Z :=
  fun s =>
    match extra_args with
    | a :: _ => Ret a s
    | [] => Fault VaArgMissing s
    end.

Definition mremap (tid : nat) (old_address old_length new_length flags : Z)
    (va : list Z) : M H Z :=
  lazily_setup tid ;;;
  res <- (if nonzero (Z.land flags (MREMAP_FIXED P))
          then
            target_address <- va_arg va ;;
            g <- get_globals ;;
            call (ext_mremap g)
                 (EvMremap (ext_mremap g) old_address old_length new_length
                           flags [target_address])
                 (run_mremap E (ext_mremap g) old_address old_length
                             new_length flags [target_address])
          else
            g <- get_globals ;;
            call (ext_mremap g)
                 (EvMremap (ext_mremap g) old_address old_length new_length
                           flags [])
                 (run_mremap E (ext_mremap g) old_address old_length
                             new_length flags [])) ;;
  merge_if_profitable res new_length (-1) ;;;
  ret res.

Definition realloc (tid : nat) (addr size : Z) : M H Z :=
  lazily_setup tid ;;;
  g <- get_globals ;;
  res <- call (ext_realloc g) (EvRealloc (ext_realloc g) addr size)
              (run_realloc E (ext_realloc g) addr size) ;;
  merge_if_profitable res size (-1) ;;;
  ret res.

(** *** Vocabulary of the properties *)

(** The state after [madvise (page_address, new_length, MADV_MERGEABLE)]
    on the region of [address] and [length]. *)
Definition advise (address length : Z) (s : state H) : state H :=
  record (EvMadvise (page_address_of (globals s) address)
                    (new_length_of (globals s) address length)
                    (MADV_MERGEABLE P)) s.

(** [flags & bit] is true in C. *)
Definition includes (flags bit : Z) : Prop := Z.land flags bit <> 0.

(** The first symbol of [setup] the loader does not find. *)
Definition first_missing : option string :=
  find (fun symbol => negb (nonzero (dlsym E (RTLD_NEXT P) symbol)))
       hooked_symbols.

(** [globals] after a [setup] that found its five symbols. *)
Definition resolved_globals (g : globals_t) : globals_t :=
  let env := parse_int (getenv E MERGE_THRESHOLD_ENV_NAME) in
  {| ext_calloc := dlsym E (RTLD_NEXT P) "calloc";
     ext_malloc := dlsym E (RTLD_NEXT P) "malloc";
     ext_mmap := dlsym E (RTLD_NEXT P) "mmap";
     ext_mremap := dlsym E (RTLD_NEXT P) "mremap";
     ext_realloc := dlsym E (RTLD_NEXT P) "realloc";
     page_size := to_size_t (sysconf_pagesize E);
     merge_threshold := if 0 <=? env then env else merge_threshold g |}.

(** The calls of such a [setup], most recent first. *)
Definition setup_trace : list event :=
  [EvGetenv MERGE_THRESHOLD_ENV_NAME; EvSysconf;
   EvDlsym (RTLD_NEXT P) "realloc"; EvDlsym (RTLD_NEXT P) "mremap";
   EvDlsym (RTLD_NEXT P) "mmap"; EvDlsym (RTLD_NEXT P) "malloc";
   EvDlsym (RTLD_NEXT P) "calloc"].

Definition after_setup (s : state H) : state H :=
  {| globals := resolved_globals (globals s);
     setup_done := setup_done s;
     mutex := mutex s;
     heap := heap s;
     trace := setup_trace ++ trace s |}.

(** The variadic arguments [mremap] passes on. *)
Definition forwarded (flags : Z) (va : list Z) : list Z :=
  if nonzero (Z.land flags (MREMAP_FIXED P)) then firstn 1 va else [].

End Library.

(** ** Concrete processes

    The runs below use [linux] and [demo_host]; the break of the bump
    allocator starts at 0x10000064, 100 bytes into a page. *)

(** No KSMP_MERGE_THRESHOLD, every symbol found. *)
Definition demo : host Z := demo_host None [].

(** The process before its first call into the library. *)
Definition demo_initial : state Z := initial_state demo 0x10000064.

(** Thread 1 is inside [lazily_setup]: it holds the mutex and [setup]
    has not returned. *)
Definition demo_in_setup : state Z := set_mutex (Some 1%nat) demo_initial.

(** The process after the first [lazily_setup] has returned. *)
Definition demo_ready : state Z := {|
  globals := resolved_globals linux demo (initial_globals demo);
  setup_done := true;
  mutex := None;
  heap := 0x10000064;
  trace := setup_trace linux
|}.

(** KSMP_MERGE_THRESHOLD is the empty string. *)
Definition demo_empty : host Z := demo_host (Some "") [].

(** KSMP_MERGE_THRESHOLD=0, after [setup]. *)
Definition demo_zero : state Z :=
  after_setup linux (demo_host (Some "0") [])
              (initial_state (demo_host (Some "0") []) 0x10000064).

(** The loader does not find mmap. *)
Definition demo_no_mmap : host Z := demo_host None ["mmap"].

(** ** Decimal numerals

    What a user writes in KSMP_MERGE_THRESHOLD for the number [n]: its
    decimal digits, most significant first, "0" for zero. *)
Definition decimal (n : Z) : string :=
  NilZero.string_of_uint (N.to_uint (Z.to_N n)).

(** The number a string of digits denotes, continuing from [acc]. *)
Fixpoint uint_value (acc : Z) (d : Decimal.uint) : Z :=
  match d with
  | Decimal.Nil => acc
  | Decimal.D0 l => uint_value (10 * acc) l
  | Decimal.D1 l => uint_value (10 * acc + 1) l
  | Decimal.D2 l => uint_value (10 * acc + 2) l
  | Decimal.D3 l => uint_value (10 * acc + 3) l
  | Decimal.D4 l => uint_value (10 * acc + 4) l
  | Decimal.D5 l => uint_value (10 * acc + 5) l
  | Decimal.D6 l => uint_value (10 * acc + 6) l
  | Decimal.D7 l => uint_value (10 * acc + 7) l
  | Decimal.D8 l => uint_value (10 * acc + 8) l
  | Decimal.D9 l => uint_value (10 * acc + 9) l
  end.

(** ** Programs that call the library *)

(** The state an outcome leaves the process in. *)
Definition final_state {H A} (o : outcome H A) : state H :=
  match o with
  | Ret _ s => s
  | Exit _ _ s => s
  | Fault _ s => s
  | Block s => s
  end.

(** A call of one of the five entry points. *)
Inductive request : Type :=
| Calloc (nmemb size : Z)
| Malloc (size : Z)
| Mmap (addr length prot flags fd offset : Z)
| Mremap (old_address old_length new_length flags : Z) (va : list Z)
| Realloc (addr size : Z).

(** The symbols of a list up to and including [m]. *)
Fixpoint symbols_upto (m : string) (l : list string) : list string :=
  match l with
  | [] => []
  | x :: r => if String.eqb x m then [x] else x :: symbols_upto m r
  end.

(** The calls [setup] makes: to the loader, [sysconf] and [getenv]. *)
Definition is_setup_call (e : event) : bool :=
  match e with
  | EvDlsym _ _ | EvSysconf | EvGetenv _ => true
  | _ => false
  end.


(** A host like [demo] whose real [mmap] fails, returning
    [(void * ) -1]. *)
Definition demo_mmap_fails : host Z := {|
  libc_calloc := libc_calloc demo;
  libc_malloc := libc_malloc demo;
  libc_mmap := libc_mmap demo;
  libc_realloc := libc_realloc demo;
  getenv := getenv demo;
  dlsym := dlsym demo;
  dlerror := dlerror demo;
  sysconf_pagesize := sysconf_pagesize demo;
  run_calloc := run_calloc demo;
  run_malloc := run_malloc demo;
  run_mmap := fun _ _ _ _ _ _ _ brk => (2 ^ 64 - 1, brk);
  run_mremap := run_mremap demo;
  run_realloc := run_realloc demo
|}.

Section Callers.

Context {H : Type}.
Variable P : platform.
Variable E : host H.

Definition serve (tid : nat) (r : request) : M H Z :=
  match r with
  | Calloc nmemb size => calloc P E tid nmemb size
  | Malloc size => malloc P E tid size
  | Mmap addr length prot flags fd offset =>
      mmap P E tid addr length prot flags fd offset
  | Mremap old_address old_length new_length flags va =>
      mremap P E tid old_address old_length new_length flags va
  | Realloc addr size => realloc P E tid addr size
  end.

(** The states of a process whose threads call the library one call
    after the other, each call having returned. *)
Inductive reachable (h0 : H) : state H -> Prop :=
| reach_start : reachable h0 (initial_state E h0)
| reach_call (s s' : state H) (tid : nat) (r : request) (res : Z) :
    reachable h0 s -> serve tid r s = Ret res s' -> reachable h0 s'.

(** The state in which thread [tid] leaves the process when [setup]
    does not find [missing]: the mutex is held and only the lookups up
    to that symbol have been made. *)
Definition failed_setup (tid : nat) (missing : string) (s : state H)
  : state H :=
  {| globals := globals s;
     setup_done := setup_done s;
     mutex := Some tid;
     heap := heap s;
     trace := rev (map (EvDlsym (RTLD_NEXT P))
                       (symbols_upto missing hooked_symbols))
              ++ trace s |}.

(** The state after the first [lazily_setup] has returned. *)
Definition initialised (s : state H) : state H :=
  {| globals := resolved_globals P E (globals s);
     setup_done := true;
     mutex := mutex s;
     heap := heap s;
     trace := setup_trace P ++ trace s |}.

(** The pointers of [globals] are the ones it starts with. *)
Definition uses_defaults (g : globals_t) : Prop :=
  ext_calloc g = libc_calloc E /\ ext_malloc g = libc_malloc E
  /\ ext_mmap g = libc_mmap E /\ ext_mremap g = 0
  /\ ext_realloc g = libc_realloc E.

(** The state after the call of a real primitive that returned
    [fst r] and left the allocator in [snd r]. *)
Definition delegated (e : event) (r : Z * H) (s : state H) : state H :=
  record e (set_heap (snd r) s).

(** What the five wrappers share after [lazily_setup]: the call, the
    policy on its result, and the result handed back. *)
Definition delegate (fn : Z) (e : event) (run : H -> Z * H)
    (length flags : Z) : M H Z :=
  bind (call fn e run)
       (fun res =>
          bind (merge_if_profitable P res length flags)
               (fun _ => ret res)).

(** What [merge_if_profitable] leaves when it cannot fail. *)
Definition judged (address length flags : Z) (s : state H) : state H :=
  if (new_length_of (globals s) address length
        <=? to_size_t (merge_threshold (globals s)))
     || (address =? 0)
  then s
  else if flags_allow P flags then advise P address length s else s.

End Callers.

(** * Properties *)

(** ** Arithmetic of the page rounding *)

Lemma to_size_t_small (z : Z) : in_size_t z -> to_size_t z = z.
Proof. intros Hz. unfold to_size_t. apply Z.mod_small. exact Hz. Qed.

Lemma to_size_t_range (z : Z) : in_size_t (to_size_t z).
Proof. unfold to_size_t, in_size_t. apply Z.mod_pos_bound. lia. Qed.

Lemma page_floor (a ps : Z) :
  0 < ps -> 0 <= a ->
  a / ps * ps = a - a mod ps /\ 0 <= a mod ps < ps /\ a mod ps <= a.
Proof.
  intros Hps Ha. repeat split.
  - pose proof (Z.div_mod a ps) as Hd. lia.
  - apply Z.mod_pos_bound. exact Hps.
  - apply Z.mod_pos_bound. exact Hps.
  - apply Z.mod_le; assumption.
Qed.

Lemma page_address_of_eq (g : globals_t) (a : Z) :
  0 < page_size g -> in_size_t a ->
  page_address_of g a = a - a mod page_size g.
Proof.
  intros Hps Ha. unfold page_address_of.
  destruct (page_floor a (page_size g) Hps (proj1 Ha)) as (-> & Hm & Hle).
  apply to_size_t_small. unfold in_size_t in *. lia.
Qed.

Lemma new_length_of_eq (g : globals_t) (a n : Z) :
  0 < page_size g -> in_size_t a ->
  new_length_of g a n = to_size_t (n + a mod page_size g).
Proof.
  intros Hps Ha. unfold new_length_of.
  rewrite page_address_of_eq by assumption.
  destruct (page_floor a (page_size g) Hps (proj1 Ha)) as (_ & Hm & Hle).
  replace (a - (a - a mod page_size g)) with (a mod page_size g) by lia.
  rewrite (to_size_t_small (a mod page_size g)); [reflexivity|].
  unfold in_size_t in *. lia.
Qed.

Lemma record_neq {H} (e : event) (s : state H) : record e s <> s.
Proof.
  intros Heq. apply (f_equal (fun x => List.length (trace x))) in Heq.
  simpl in Heq. lia.
Qed.

Section Policy.

Context {H : Type}.
Variable P : platform.

(** With a positive page size and an address that is a pointer value,
    neither the division nor the assertion of [merge_if_profitable] can
    fail, and the function is its two tests. *)
Lemma merge_if_profitable_eq (address length flags : Z) (s : state H) :
  0 < page_size (globals s) -> in_size_t address ->
  merge_if_profitable P address length flags s =
  Ret tt
    (if (new_length_of (globals s) address length
           <=? to_size_t (merge_threshold (globals s)))
        || (address =? 0)
     then s
     else if flags_allow P flags then advise P address length s else s).
Proof.
  intros Hps Ha. unfold merge_if_profitable.
  destruct (Z.eqb_spec (page_size (globals s)) 0) as [E0|_]; [lia|].
  assert (Hle : page_address_of (globals s) address <= address).
  { rewrite page_address_of_eq by assumption.
    pose proof (Z.mod_pos_bound address (page_size (globals s)) Hps). lia. }
  apply Z.leb_le in Hle. rewrite Hle. simpl.
  destruct (_ || _); [reflexivity|].
  destruct (flags_allow P flags); reflexivity.
Qed.

Lemma includes_nonzero (flags bit : Z) :
  nonzero (Z.land flags bit) = true <-> includes flags bit.
Proof.
  unfold nonzero, includes.
  destruct (Z.eqb_spec (Z.land flags bit) 0); simpl; split;
    congruence.
Qed.

Lemma flags_allow_spec (flags : Z) :
  flags_allow P flags = true <->
  flags = -1 \/
  (includes flags (MAP_PRIVATE P) /\ includes flags (MAP_ANONYMOUS P)
   /\ ~ includes flags (MAP_GROWSDOWN P) /\ ~ includes flags (MAP_STACK P)).
Proof.
  unfold flags_allow.
  rewrite orb_true_iff, !andb_true_iff, !negb_true_iff, Z.eqb_eq.
  rewrite <- !includes_nonzero.
  split; (intros [Hu|Hk]; [left; exact Hu|right]).
  - destruct Hk as [[[Hp Ha] Hg] Hs]. repeat split; congruence.
  - destruct Hk as (Hp & Ha & Hg & Hs).
    repeat split; try assumption;
      [destruct (nonzero (Z.land flags (MAP_GROWSDOWN P)))
      |destruct (nonzero (Z.land flags (MAP_STACK P)))];
      congruence.
Qed.

(** C2. Threshold boundary.  For a non-null address, flags that pass the
    filter and a configured threshold [T] (an [int] that is not
    negative), the advisory is issued exactly when the page-extended
    length [L] is strictly greater than [T]: nothing is issued for
    [L = T], and [madvise] is called for [L = T + 1]. *)
Theorem threshold_boundary (address length flags : Z) (s : state H) :
  0 < page_size (globals s) ->
  0 <= merge_threshold (globals s) <= INT_MAX ->
  in_size_t address -> address <> 0 ->
  flags_allow P flags = true ->
  let L := new_length_of (globals s) address length in
  let T := merge_threshold (globals s) in
  (merge_if_profitable P address length flags s
     = Ret tt (advise P address length s) <-> T < L)
  /\ (merge_if_profitable P address length flags s = Ret tt s <-> L <= T)
  /\ (L = T -> merge_if_profitable P address length flags s = Ret tt s)
  /\ (L = T + 1 ->
      merge_if_profitable P address length flags s
        = Ret tt (advise P address length s)).
Proof.
  intros Hps HT Ha Hnz Hfl L T.
  rewrite merge_if_profitable_eq by assumption.
  rewrite Hfl.
  assert (HTs : to_size_t (merge_threshold (globals s)) = T).
  { apply to_size_t_small. unfold in_size_t, INT_MAX in *. lia. }
  rewrite HTs. fold L.
  destruct (Z.eqb_spec address 0) as [|_]; [contradiction|].
  rewrite orb_false_r.
  assert (Hne : @Ret H unit tt (advise P address length s) <> Ret tt s).
  { intros Heq. injection Heq. apply record_neq. }
  destruct (Z.leb_spec L T) as [Hle|Hgt]; simpl;
    repeat split; intros; try lia; try reflexivity;
    exfalso; congruence.
Qed.

(** C3. Flags filter.  For a region above the threshold (a non-null
    address whose page-extended length exceeds it), the advisory is
    issued when [flags] is -1, and when [flags] includes MAP_PRIVATE and
    MAP_ANONYMOUS and includes neither MAP_GROWSDOWN nor MAP_STACK; for
    every other value of [flags] nothing is issued. *)
Theorem flags_filter (address length flags : Z) (s : state H) :
  0 < page_size (globals s) ->
  in_size_t address -> address <> 0 ->
  to_size_t (merge_threshold (globals s))
    < new_length_of (globals s) address length ->
  (flags = -1 ->
   merge_if_profitable P address length flags s
     = Ret tt (advise P address length s))
  /\ (includes flags (MAP_PRIVATE P) -> includes flags (MAP_ANONYMOUS P) ->
      ~ includes flags (MAP_GROWSDOWN P) -> ~ includes flags (MAP_STACK P) ->
      merge_if_profitable P address length flags s
        = Ret tt (advise P address length s))
  /\ (flags <> -1 ->
      ~ (includes flags (MAP_PRIVATE P) /\ includes flags (MAP_ANONYMOUS P)
         /\ ~ includes flags (MAP_GROWSDOWN P)
         /\ ~ includes flags (MAP_STACK P)) ->
      merge_if_profitable P address length flags s = Ret tt s).
Proof.
  intros Hps Ha Hnz Habove.
  rewrite merge_if_profitable_eq by assumption.
  apply Z.leb_gt in Habove. rewrite Habove.
  destruct (Z.eqb_spec address 0) as [|_]; [contradiction|]. simpl.
  pose proof (flags_allow_spec flags) as Hspec.
  destruct (flags_allow P flags).
  - repeat split; intros; try reflexivity.
    destruct (proj1 Hspec eq_refl); contradiction.
  - repeat split; intros; try reflexivity;
      exfalso; assert (false = true) by (apply Hspec; tauto);
      discriminate.
Qed.

(** C8. Null address.  Whatever the length and the flags, a null address
    makes [merge_if_profitable] return without calling [madvise] and
    without touching the state. *)
Theorem null_address_noop (length flags : Z) (s : state H) :
  0 < page_size (globals s) ->
  merge_if_profitable P 0 length flags s = Ret tt s.
Proof.
  intros Hps.
  rewrite merge_if_profitable_eq; [|assumption|unfold in_size_t; lia].
  rewrite Z.eqb_refl, orb_true_r. reflexivity.
Qed.

(** C4 (amended). Page rounding.  The region [merge_if_profitable]
    advises, when it advises, starts at the address rounded down to a
    multiple of the page size, and its length is the requested length
    plus the offset of the address in its page, reduced modulo 2^64.
    Whenever that sum fits in a [size_t] - in particular whenever the
    requested region ends below 2^64 - the length is the sum itself and
    the advised region ends where the requested one does, so it covers
    all of it. *)
Theorem page_rounding (address length flags : Z) (s : state H) :
  0 < page_size (globals s) -> in_size_t address -> in_size_t length ->
  let g := globals s in
  let offset := address mod page_size g in
  (merge_if_profitable P address length flags s = Ret tt s
   \/ merge_if_profitable P address length flags s
      = Ret tt (record (EvMadvise (address - offset)
                                  (to_size_t (length + offset))
                                  (MADV_MERGEABLE P)) s))
  /\ page_address_of g address = address - offset
  /\ new_length_of g address length = to_size_t (length + offset)
  /\ (address - offset) mod page_size g = 0
  /\ 0 <= offset < page_size g
  /\ (length + offset < 2 ^ 64 ->
      to_size_t (length + offset) = length + offset
      /\ address - offset <= address
      /\ (address - offset) + (length + offset) = address + length)
  /\ (address + length < 2 ^ 64 -> length + offset < 2 ^ 64).
Proof.
  intros Hps Ha Hn g offset.
  destruct (page_floor address (page_size g) Hps (proj1 Ha))
    as (Hfl & Hm & Hle).
  fold offset in Hfl, Hm, Hle.
  assert (Hstart : page_address_of g address = address - offset)
    by (apply page_address_of_eq; assumption).
  assert (Hlen : new_length_of g address length
                 = to_size_t (length + offset))
    by (apply new_length_of_eq; assumption).
  split.
  { rewrite merge_if_profitable_eq by assumption.
    unfold advise. fold g. rewrite Hstart, Hlen.
    destruct (_ || _); [left; reflexivity|].
    destruct (flags_allow P flags); [right|left]; reflexivity. }
  split; [exact Hstart|]. split; [exact Hlen|].
  split; [rewrite <- Hfl; apply Z.mod_mul; lia|].
  split; [exact Hm|].
  split.
  - intros Hfit. split; [|lia].
    apply to_size_t_small. unfold in_size_t in *. lia.
  - intros Hend. lia.
Qed.

End Policy.

(** ** The threshold read from the environment *)

Lemma strtol_empty : strtol "" = (0, "").
Proof. reflexivity. Qed.

Lemma parse_int_absent : parse_int None = -1.
Proof. reflexivity. Qed.

(** The result is -1 exactly when [strtol] stops before the end of the
    string or yields a negative value. *)
Lemma parse_int_unset (str : string) :
  parse_int (Some str) = -1 <->
  snd (strtol str) <> "" \/ fst (strtol str) < 0.
Proof.
  unfold parse_int. destruct (strtol str) as [v e]. simpl.
  destruct e as [|c e]; simpl.
  - destruct (Z.ltb_spec v 0) as [Hneg|Hpos].
    + split; [right; assumption|reflexivity].
    + destruct (Z.ltb_spec INT_MAX v); unfold INT_MAX in *;
        (split; [lia|intros [Hc|Hc]; [congruence|lia]]).
  - split; [left; discriminate|reflexivity].
Qed.

(** A string without digits where a number should start is rejected,
    unless it is empty. *)
Lemma parse_int_no_digits (str : string) :
  starts_with_digit (snd (read_sign (skip_spaces str))) = false ->
  str <> "" ->
  parse_int (Some str) = -1.
Proof.
  intros Hnd Hne. apply parse_int_unset. left.
  unfold strtol. destruct (read_sign (skip_spaces str)) as [neg body].
  simpl in Hnd. rewrite Hnd. exact Hne.
Qed.

Lemma parse_int_negative (str : string) :
  fst (strtol str) < 0 -> parse_int (Some str) = -1.
Proof. intros Hn. apply parse_int_unset. right. exact Hn. Qed.

Lemma parse_int_trailing (str : string) :
  snd (strtol str) <> "" -> parse_int (Some str) = -1.
Proof. intros Hn. apply parse_int_unset. left. exact Hn. Qed.

Lemma parse_int_range (o : option string) :
  parse_int o = -1 \/ 0 <= parse_int o <= INT_MAX.
Proof.
  destruct o as [str|]; [|left; reflexivity].
  unfold parse_int. destruct (strtol str) as [v e].
  destruct (not_at_nul e); simpl; [left; reflexivity|].
  destruct (Z.ltb_spec v 0); [left; reflexivity|].
  destruct (Z.ltb_spec INT_MAX v); right; unfold INT_MAX in *; lia.
Qed.

(** ** The lazy initialiser *)

Section Initialiser.

Context {H : Type}.
Variable P : platform.
Variable E : host H.

Local Open Scope ksm_scope.

Lemma xdlsym_found (handle : Z) (symbol : string) (s : state H) :
  dlsym E handle symbol <> 0 ->
  xdlsym E handle symbol s
  = Ret (dlsym E handle symbol) (record (EvDlsym handle symbol) s).
Proof.
  intros Hf. unfold xdlsym, nonzero.
  destruct (Z.eqb_spec (dlsym E handle symbol) 0); [contradiction|].
  reflexivity.
Qed.

Lemma xdlsym_missing (handle : Z) (symbol : string) (s : state H) :
  dlsym E handle symbol = 0 ->
  xdlsym E handle symbol s
  = Exit 1 (load_failure symbol (dlerror E symbol))
         (record (EvDlsym handle symbol) s).
Proof.
  intros Hm. unfold xdlsym, nonzero. rewrite Hm. reflexivity.
Qed.

(** C5. Recursive reentry.  When the calling thread already owns the
    mutex - it is inside [lazily_setup] - a call of [lazily_setup]
    returns at once: it does not wait, [setup] is not run (the trace is
    the same), and [setup_done], [globals] and the mutex are as they
    were. *)
Theorem recursive_reentry (tid : nat) (s : state H) :
  mutex s = Some tid ->
  lazily_setup P E tid s = Ret tt s.
Proof.
  intros Hm. unfold lazily_setup.
  destruct (setup_done s); [reflexivity|].
  unfold bind, pthread_mutex_lock. rewrite Hm, Nat.eqb_refl.
  reflexivity.
Qed.

(** The first call takes the mutex and runs [setup] with it held. *)
Lemma lazily_setup_first (tid : nat) (s : state H) :
  setup_done s = false -> mutex s = None ->
  lazily_setup P E tid s
  = (setup P E ;;; set_setup_done true ;;; pthread_mutex_unlock tid)
      (set_mutex (Some tid) s).
Proof.
  intros Hd Hm. unfold lazily_setup. rewrite Hd.
  unfold bind at 1. unfold pthread_mutex_lock. rewrite Hm. simpl.
  unfold bind at 1. simpl. rewrite Hd. simpl.
  unfold bind. destruct (setup P E (set_mutex (Some tid) s)); reflexivity.
Qed.

(** Later calls take the fast path. *)
Lemma lazily_setup_done (tid : nat) (s : state H) :
  setup_done s = true -> lazily_setup P E tid s = Ret tt s.
Proof. intros Hd. unfold lazily_setup. rewrite Hd. reflexivity. Qed.

Lemma all_found_each :
  (forall symbol, In symbol hooked_symbols ->
                  dlsym E (RTLD_NEXT P) symbol <> 0) ->
  dlsym E (RTLD_NEXT P) "calloc" <> 0
  /\ dlsym E (RTLD_NEXT P) "malloc" <> 0
  /\ dlsym E (RTLD_NEXT P) "mmap" <> 0
  /\ dlsym E (RTLD_NEXT P) "mremap" <> 0
  /\ dlsym E (RTLD_NEXT P) "realloc" <> 0.
Proof.
  intros Hall. repeat split; apply Hall; simpl; tauto.
Qed.

(** [setup] when the loader finds the five symbols. *)
Lemma setup_resolved (s : state H) :
  (forall symbol, In symbol hooked_symbols ->
                  dlsym E (RTLD_NEXT P) symbol <> 0) ->
  setup P E s = Ret tt (after_setup P E s).
Proof.
  intros Hall.
  destruct (all_found_each Hall) as (Hc & Hm & Hmm & Hmr & Hr).
  unfold setup.
  unfold bind at 1. rewrite xdlsym_found by assumption.
  unfold bind at 1. rewrite xdlsym_found by assumption.
  unfold bind at 1. rewrite xdlsym_found by assumption.
  unfold bind at 1. rewrite xdlsym_found by assumption.
  unfold bind at 1. rewrite xdlsym_found by assumption.
  unfold bind, read_page_size, set_page_size, get_int_from_environment,
    set_merge_threshold, set_ext, get_globals, set_globals, ret,
    after_setup, resolved_globals, bind.
  simpl.
  destruct (0 <=? parse_int (getenv E MERGE_THRESHOLD_ENV_NAME));
    reflexivity.
Qed.

Lemma first_missing_sound (missing : string) :
  first_missing P E = Some missing ->
  In missing hooked_symbols /\ dlsym E (RTLD_NEXT P) missing = 0.
Proof.
  unfold first_missing. intros Hfm.
  apply find_some in Hfm. destruct Hfm as [Hin Hz]. split; [exact Hin|].
  unfold nonzero in Hz. rewrite negb_involutive in Hz.
  apply Z.eqb_eq. exact Hz.
Qed.

Lemma first_missing_complete (symbol : string) :
  In symbol hooked_symbols -> dlsym E (RTLD_NEXT P) symbol = 0 ->
  exists missing, first_missing P E = Some missing.
Proof.
  intros Hin Hz. unfold first_missing.
  destruct (find _ hooked_symbols) as [m|] eqn:Hf; [exists m; reflexivity|].
  exfalso.
  pose proof (find_none _ _ Hf symbol Hin) as Hn. simpl in Hn.
  unfold nonzero in Hn. rewrite Hz in Hn. discriminate.
Qed.

(** One lookup of [setup]: either the symbol is the first one missing
    and [setup] exits there, or the lookup returns and [setup] goes on. *)
Ltac lookup_step symbol :=
  destruct (Z.eqb_spec (dlsym E (RTLD_NEXT P) symbol) 0);
  cbn [negb];
  [intros [= <-]; unfold bind at 1; rewrite xdlsym_missing by assumption;
   eexists; repeat split
  |unfold bind at 1; rewrite xdlsym_found by assumption].

(** [setup] stops at the first symbol the loader does not find, before
    any write to [globals]. *)
Lemma setup_missing (missing : string) (s : state H) :
  first_missing P E = Some missing ->
  exists s',
    setup P E s = Exit 1 (load_failure missing (dlerror E missing)) s'
    /\ globals s' = globals s /\ setup_done s' = setup_done s
    /\ mutex s' = mutex s /\ heap s' = heap s.
Proof.
  unfold first_missing, hooked_symbols, find, nonzero, setup.
  lookup_step "calloc".
  lookup_step "malloc".
  lookup_step "mmap".
  lookup_step "mremap".
  lookup_step "realloc".
  intros [=].
Qed.

Lemma first_missing_none :
  first_missing P E = None ->
  forall symbol, In symbol hooked_symbols ->
                 dlsym E (RTLD_NEXT P) symbol <> 0.
Proof.
  unfold first_missing. intros Hnone symbol Hin Hz.
  pose proof (find_none _ _ Hnone symbol Hin) as Hn. simpl in Hn.
  unfold nonzero in Hn. rewrite Hz in Hn. discriminate.
Qed.

(** [setup] returns only through its last line. *)
Lemma setup_returns (s s' : state H) :
  setup P E s = Ret tt s' -> s' = after_setup P E s.
Proof.
  intros Hret. destruct (first_missing P E) as [missing|] eqn:Hfm.
  - destruct (setup_missing missing s Hfm) as (s'' & Hexit & _).
    congruence.
  - rewrite (setup_resolved s (first_missing_none Hfm)) in Hret.
    congruence.
Qed.

(** A [lazily_setup] that returns leaves [globals] as it found it or as
    [setup] made it. *)
Lemma lazily_setup_globals (tid : nat) (s s' : state H) :
  lazily_setup P E tid s = Ret tt s' ->
  globals s' = globals s
  \/ globals s' = resolved_globals P E (globals s).
Proof.
  unfold lazily_setup. destruct (setup_done s) eqn:Hd.
  - intros [= <-]. left. reflexivity.
  - unfold bind at 1. unfold pthread_mutex_lock.
    destruct (mutex s) as [owner|] eqn:Hm.
    + destruct (Nat.eqb owner tid); [|discriminate].
      intros [= <-]. left. reflexivity.
    + cbn [is_EDEADLK]. unfold bind at 1. cbn [setup_done set_mutex].
      rewrite Hd. cbn [negb]. unfold bind at 1.
      destruct (setup P E (set_mutex (Some tid) s)) as [[] s1| | |] eqn:Hs;
        try discriminate.
      apply setup_returns in Hs. subst s1.
      unfold set_setup_done, pthread_mutex_unlock. cbn.
      rewrite Nat.eqb_refl. intros [= <-]. right. reflexivity.
Qed.

(** A value the parser rejects leaves the threshold as it was. *)
Lemma setup_keeps_threshold (s : state H) :
  parse_int (getenv E MERGE_THRESHOLD_ENV_NAME) = -1 ->
  merge_threshold (globals (after_setup P E s))
  = merge_threshold (globals s).
Proof. intros Hu. simpl. rewrite Hu. reflexivity. Qed.

(** [setup] keeps the threshold a non-negative [int]. *)
Lemma setup_threshold_range (s : state H) :
  0 <= merge_threshold (globals s) <= INT_MAX ->
  0 <= merge_threshold (globals (after_setup P E s)) <= INT_MAX.
Proof.
  intros Hr. simpl.
  destruct (parse_int_range (getenv E MERGE_THRESHOLD_ENV_NAME)) as [Hu|Hv].
  - rewrite Hu. simpl. exact Hr.
  - destruct (Z.leb_spec 0 (parse_int (getenv E MERGE_THRESHOLD_ENV_NAME)));
      [exact Hv|exact Hr].
Qed.

(** The threshold stays a non-negative [int] across [lazily_setup]. *)
Lemma lazily_setup_threshold_range (tid : nat) (s s' : state H) :
  0 <= merge_threshold (globals s) <= INT_MAX ->
  lazily_setup P E tid s = Ret tt s' ->
  0 <= merge_threshold (globals s') <= INT_MAX.
Proof.
  intros Hr Hls. destruct (lazily_setup_globals tid s s' Hls) as [->| ->].
  - exact Hr.
  - exact (setup_threshold_range s Hr).
Qed.

(** C6. Fatal symbol-resolution failure.  If the loader does not find
    one of the five symbols, [setup] ends the process with exit status 1
    and the message "failed to load <symbol> : <dlerror>" for the first
    symbol that is not found - the given one when it is the only one -
    and [globals] is as it was: none of the five pointers has been
    replaced.  The first call of [lazily_setup] ends the same way, with
    [setup_done] still false. *)
Theorem missing_symbol_is_fatal (symbol : string) (s : state H) :
  In symbol hooked_symbols ->
  dlsym E (RTLD_NEXT P) symbol = 0 ->
  exists missing,
    first_missing P E = Some missing
    /\ In missing hooked_symbols
    /\ dlsym E (RTLD_NEXT P) missing = 0
    /\ ((forall other, In other hooked_symbols -> other <> symbol ->
                       dlsym E (RTLD_NEXT P) other <> 0) ->
        missing = symbol)
    /\ (exists s',
          setup P E s = Exit 1 (load_failure missing (dlerror E missing)) s'
          /\ globals s' = globals s /\ setup_done s' = setup_done s)
    /\ (forall tid, setup_done s = false -> mutex s = None ->
        exists s',
          lazily_setup P E tid s
          = Exit 1 (load_failure missing (dlerror E missing)) s'
          /\ globals s' = globals s /\ setup_done s' = false).
Proof.
  intros Hin Hz.
  destruct (first_missing_complete symbol Hin Hz) as [missing Hfm].
  destruct (first_missing_sound missing Hfm) as [Hmin Hmz].
  exists missing. repeat split; try assumption.
  - intros Hothers. destruct (string_dec missing symbol) as [|Hne];
      [assumption|].
    exfalso. exact (Hothers missing Hmin Hne Hmz).
  - destruct (setup_missing missing s Hfm) as (s' & Hs & Hg & Hd & _ & _).
    exists s'. repeat split; assumption.
  - intros tid Hd Hm.
    destruct (setup_missing missing (set_mutex (Some tid) s) Hfm)
      as (s' & Hs & Hg & Hd' & _ & _).
    exists s'. rewrite lazily_setup_first by assumption.
    unfold bind at 1. unfold bind at 1. rewrite Hs.
    repeat split; [exact Hg|]. rewrite Hd'. exact Hd.
Qed.

End Initialiser.

(** ** The configured threshold *)

Section Configuration.

Context {H : Type}.
Variable P : platform.
Variable E : host H.

(** Values of KSMP_MERGE_THRESHOLD the parser rejects: the variable is
    not set, or its value is not empty and has no digit where the number
    should start, or converts to a negative number, or has characters
    left after the number.  [setup] then leaves the threshold alone; from
    the initial state that is the default of 32768. *)
Lemma rejected_value_keeps_default (s : state H) :
  (getenv E MERGE_THRESHOLD_ENV_NAME = None
   \/ exists str,
        getenv E MERGE_THRESHOLD_ENV_NAME = Some str
        /\ ((str <> ""
             /\ starts_with_digit (snd (read_sign (skip_spaces str))) = false)
            \/ fst (strtol str) < 0
            \/ snd (strtol str) <> "")) ->
  parse_int (getenv E MERGE_THRESHOLD_ENV_NAME) = -1
  /\ merge_threshold (globals (after_setup P E s))
     = merge_threshold (globals s)
  /\ merge_threshold (initial_globals E) = 32768.
Proof.
  intros Hrej.
  assert (Hu : parse_int (getenv E MERGE_THRESHOLD_ENV_NAME) = -1).
  { destruct Hrej as [->|(str & -> & [[Hne Hnd]|[Hneg|Htrail]])].
    - reflexivity.
    - apply parse_int_no_digits; assumption.
    - apply parse_int_negative; assumption.
    - apply parse_int_trailing; assumption. }
  split; [exact Hu|].
  split; [apply setup_keeps_threshold; exact Hu|reflexivity].
Qed.

(** C10. The empty string.  When KSMP_MERGE_THRESHOLD is set to the
    empty string, [strtol] converts nothing and leaves the end pointer
    at the terminating NUL, [get_int_from_environment] returns 0 and not
    -1, and a [setup] that finds its symbols stores 0 as the threshold;
    from then on every non-null region whose page-extended length is at
    least 1 passes the length test and, with flags that pass the filter,
    is advised. *)
Theorem empty_string_threshold (s : state H) :
  getenv E MERGE_THRESHOLD_ENV_NAME = Some "" ->
  (forall symbol, In symbol hooked_symbols ->
                  dlsym E (RTLD_NEXT P) symbol <> 0) ->
  strtol "" = (0, "")
  /\ get_int_from_environment E MERGE_THRESHOLD_ENV_NAME s
     = Ret 0 (record (EvGetenv MERGE_THRESHOLD_ENV_NAME) s)
  /\ exists s',
       setup P E s = Ret tt s'
       /\ merge_threshold (globals s') = 0
       /\ forall address length flags,
            0 < page_size (globals s') ->
            in_size_t address -> address <> 0 ->
            1 <= new_length_of (globals s') address length ->
            (new_length_of (globals s') address length
               <=? to_size_t (merge_threshold (globals s'))) = false
            /\ (flags_allow P flags = true ->
                merge_if_profitable P address length flags s'
                = Ret tt (advise P address length s')).
Proof.
  intros Henv Hall. split; [reflexivity|]. split.
  - unfold get_int_from_environment. rewrite Henv. reflexivity.
  - exists (after_setup P E s). split; [apply setup_resolved; exact Hall|].
    assert (HT : merge_threshold (globals (after_setup P E s)) = 0).
    { simpl. rewrite Henv. reflexivity. }
    split; [exact HT|].
    intros address length flags Hps Ha Hnz HL.
    assert (Hgt : (new_length_of (globals (after_setup P E s)) address length
                     <=? to_size_t (merge_threshold
                                      (globals (after_setup P E s)))) = false).
    { rewrite HT, (to_size_t_small 0) by (unfold in_size_t; lia).
      apply Z.leb_gt. lia. }
    split; [exact Hgt|].
    intros Hfl. rewrite merge_if_profitable_eq by assumption.
    rewrite Hgt, Hfl.
    destruct (Z.eqb_spec address 0); [contradiction|]. reflexivity.
Qed.

End Configuration.

(** ** The wrappers *)

Section Wrappers.

Context {H : Type}.
Variable P : platform.
Variable E : host H.

Local Open Scope ksm_scope.

Lemma call_eq (fn : Z) (e : event) (run : H -> Z * H) (s : state H) :
  fn <> 0 ->
  call fn e run s
  = Ret (fst (run (heap s))) (record e (set_heap (snd (run (heap s))) s)).
Proof.
  intros Hfn. unfold call.
  destruct (Z.eqb_spec fn 0); [contradiction|].
  destruct (run (heap s)); reflexivity.
Qed.

(** What every wrapper does after [lazily_setup]: the call, the policy
    on its result, and the result handed back. *)
Lemma delegate_returns (fn : Z) (e : event) (run : H -> Z * H)
    (length flags : Z) (s1 : state H) :
  fn <> 0 -> 0 < page_size (globals s1) ->
  in_size_t (fst (run (heap s1))) ->
  exists s2,
    (res <- call fn e run ;;
     merge_if_profitable P res length flags ;;;
     ret res) s1
    = Ret (fst (run (heap s1))) s2.
Proof.
  intros Hfn Hps Hres.
  unfold bind at 1. rewrite call_eq by assumption.
  unfold bind. rewrite merge_if_profitable_eq by assumption.
  eexists. reflexivity.
Qed.

(** C1. Transparency.  Once [lazily_setup] has returned, each of the
    five wrappers returns the very value the function behind its pointer
    in [globals] returns for the same arguments, whatever that value is
    (a null pointer or MAP_FAILED included). *)
Theorem wrappers_transparent (tid : nat) (s s1 : state H) :
  lazily_setup P E tid s = Ret tt s1 ->
  0 < page_size (globals s1) ->
  let g := globals s1 in
  (forall nmemb size,
      ext_calloc g <> 0 ->
      in_size_t (fst (run_calloc E (ext_calloc g) nmemb size (heap s1))) ->
      exists s2,
        calloc P E tid nmemb size s
        = Ret (fst (run_calloc E (ext_calloc g) nmemb size (heap s1))) s2)
  /\ (forall size,
      ext_malloc g <> 0 ->
      in_size_t (fst (run_malloc E (ext_malloc g) size (heap s1))) ->
      exists s2,
        malloc P E tid size s
        = Ret (fst (run_malloc E (ext_malloc g) size (heap s1))) s2)
  /\ (forall addr length prot flags fd offset,
      ext_mmap g <> 0 ->
      in_size_t (fst (run_mmap E (ext_mmap g) addr length prot flags fd
                               offset (heap s1))) ->
      exists s2,
        mmap P E tid addr length prot flags fd offset s
        = Ret (fst (run_mmap E (ext_mmap g) addr length prot flags fd
                             offset (heap s1))) s2)
  /\ (forall old_address old_length new_length flags va,
      ext_mremap g <> 0 ->
      (includes flags (MREMAP_FIXED P) -> va <> []) ->
      in_size_t (fst (run_mremap E (ext_mremap g) old_address old_length
                                 new_length flags (forwarded P flags va)
                                 (heap s1))) ->
      exists s2,
        mremap P E tid old_address old_length new_length flags va s
        = Ret (fst (run_mremap E (ext_mremap g) old_address old_length
                               new_length flags (forwarded P flags va)
                               (heap s1))) s2)
  /\ (forall addr size,
      ext_realloc g <> 0 ->
      in_size_t (fst (run_realloc E (ext_realloc g) addr size (heap s1))) ->
      exists s2,
        realloc P E tid addr size s
        = Ret (fst (run_realloc E (ext_realloc g) addr size (heap s1))) s2).
Proof.
  intros Hls Hps g. repeat split.
  - intros nmemb size Hfn Hres. unfold calloc.
    unfold bind at 1. rewrite Hls.
    unfold bind at 1. unfold get_globals.
    apply delegate_returns; assumption.
  - intros size Hfn Hres. unfold malloc.
    unfold bind at 1. rewrite Hls.
    unfold bind at 1. unfold get_globals.
    apply delegate_returns; assumption.
  - intros addr length prot flags fd offset Hfn Hres. unfold mmap.
    unfold bind at 1. rewrite Hls.
    unfold bind at 1. unfold get_globals.
    apply delegate_returns; assumption.
  - intros old_address old_length new_length flags va Hfn Hva Hres.
    unfold mremap. unfold bind at 1. rewrite Hls.
    unfold forwarded in *.
    destruct (nonzero (Z.land flags (MREMAP_FIXED P))) eqn:Hfixed.
    + destruct va as [|target rest].
      * exfalso. apply Hva; [|reflexivity].
        apply includes_nonzero. exact Hfixed.
      * simpl firstn in *.
        unfold bind at 2. unfold va_arg.
        unfold bind at 2. unfold get_globals.
        apply delegate_returns; assumption.
    + unfold bind at 2. unfold get_globals.
      apply delegate_returns; assumption.
  - intros addr size Hfn Hres. unfold realloc.
    unfold bind at 1. rewrite Hls.
    unfold bind at 1. unfold get_globals.
    apply delegate_returns; assumption.
Qed.

(** C9. Variadic remap dispatch.  When [flags] has MREMAP_FIXED, the
    wrapper takes the first variadic argument and calls the real
    [mremap] with five arguments, the fifth being that one; otherwise it
    calls it with the four fixed arguments and does not look at the
    variadic ones: its outcome is the same for every such list. *)
Theorem variadic_remap_dispatch (tid : nat)
    (old_address old_length new_length flags : Z) (va : list Z)
    (s s1 : state H) :
  lazily_setup P E tid s = Ret tt s1 ->
  ext_mremap (globals s1) <> 0 ->
  let fn := ext_mremap (globals s1) in
  let delegated extra :=
    let r := run_mremap E fn old_address old_length new_length flags extra
                        (heap s1) in
    (merge_if_profitable P (fst r) new_length (-1) ;;; ret (fst r))
      (record (EvMremap fn old_address old_length new_length flags extra)
              (set_heap (snd r) s1)) in
  (includes flags (MREMAP_FIXED P) ->
   forall target rest, va = target :: rest ->
     mremap P E tid old_address old_length new_length flags va s
     = delegated [target])
  /\ (~ includes flags (MREMAP_FIXED P) ->
      mremap P E tid old_address old_length new_length flags va s
      = delegated []
      /\ forall va',
           mremap P E tid old_address old_length new_length flags va' s
           = mremap P E tid old_address old_length new_length flags va s).
Proof.
  intros Hls Hfn fn delegated. split.
  - intros Hfixed target rest ->.
    apply includes_nonzero in Hfixed.
    unfold mremap. unfold bind at 1. rewrite Hls.
    rewrite Hfixed.
    unfold bind at 1. unfold bind at 1. unfold va_arg.
    unfold bind at 1. unfold get_globals.
    rewrite call_eq by assumption. reflexivity.
  - intros Hfree.
    assert (Hbit : nonzero (Z.land flags (MREMAP_FIXED P)) = false).
    { destruct (nonzero (Z.land flags (MREMAP_FIXED P))) eqn:Hb;
        [|reflexivity].
      exfalso. apply Hfree. apply includes_nonzero. exact Hb. }
    assert (Hany : forall l,
               mremap P E tid old_address old_length new_length flags l s
               = delegated []).
    { intros l. unfold mremap. unfold bind at 1. rewrite Hls.
      rewrite Hbit.
      unfold bind at 1. unfold bind at 1. unfold get_globals.
      rewrite call_eq by assumption. reflexivity. }
    split; [apply Hany|].
    intros va'. rewrite !Hany. reflexivity.
Qed.

End Wrappers.

(** ** Concrete runs *)

Example strtol_runs :
  strtol "4096" = (4096, "")
  /\ strtol "  +42" = (42, "")
  /\ strtol "-5" = (-5, "")
  /\ strtol "abc" = (0, "abc")
  /\ strtol "12abc" = (12, "abc")
  /\ strtol " -" = (0, " -")
  /\ strtol "99999999999999999999" = (LONG_MAX, "").
Proof. repeat split; reflexivity. Qed.

Example parse_int_runs :
  parse_int (Some "4096") = 4096
  /\ parse_int (Some "-5") = -1
  /\ parse_int (Some "abc") = -1
  /\ parse_int (Some "12abc") = -1
  /\ parse_int (Some " ") = -1
  /\ parse_int (Some "99999999999") = INT_MAX
  /\ parse_int (Some "") = 0.
Proof. repeat split; reflexivity. Qed.

Example first_call_runs :
  lazily_setup linux demo 1 demo_initial = Ret tt demo_ready
  /\ merge_threshold (globals demo_ready) = 32768
  /\ page_size (globals demo_ready) = 4096.
Proof. repeat split; reflexivity. Qed.

Lemma threshold_boundary_witness :
  (0 < page_size (globals demo_ready)
   /\ 0 <= merge_threshold (globals demo_ready) <= INT_MAX
   /\ in_size_t 0x10000064 /\ 0x10000064 <> 0
   /\ flags_allow linux (-1) = true)
  /\ new_length_of (globals demo_ready) 0x10000064 32668 = 32768
  /\ merge_if_profitable linux 0x10000064 32668 (-1) demo_ready
     = Ret tt demo_ready.
Proof.
  assert (Hh : 0 < page_size (globals demo_ready)
               /\ 0 <= merge_threshold (globals demo_ready) <= INT_MAX
               /\ in_size_t 0x10000064 /\ 0x10000064 <> 0
               /\ flags_allow linux (-1) = true).
  { vm_compute. repeat split; try reflexivity; discriminate. }
  split; [exact Hh|]. split; [reflexivity|].
  destruct Hh as (Hps & HT & Ha & Hnz & Hfl).
  destruct (threshold_boundary linux 0x10000064 32668 (-1) demo_ready
              Hps HT Ha Hnz Hfl) as (_ & _ & Hequal & _).
  apply Hequal. reflexivity.
Defined.

Lemma flags_filter_witness :
  (0 < page_size (globals demo_ready)
   /\ in_size_t 0x10000000 /\ 0x10000000 <> 0
   /\ to_size_t (merge_threshold (globals demo_ready))
      < new_length_of (globals demo_ready) 0x10000000 65536)
  /\ merge_if_profitable linux 0x10000000 65536 0x22 demo_ready
     = Ret tt (record (EvMadvise 0x10000000 65536 12) demo_ready)
  /\ merge_if_profitable linux 0x10000000 65536 0x20022 demo_ready
     = Ret tt demo_ready
  /\ merge_if_profitable linux 0x10000000 65536 0x21 demo_ready
     = Ret tt demo_ready
  /\ merge_if_profitable linux 0x10000000 65536 0x02 demo_ready
     = Ret tt demo_ready.
Proof.
  assert (Hh : 0 < page_size (globals demo_ready)
               /\ in_size_t 0x10000000 /\ 0x10000000 <> 0
               /\ to_size_t (merge_threshold (globals demo_ready))
                  < new_length_of (globals demo_ready) 0x10000000 65536).
  { vm_compute. repeat split; try reflexivity; discriminate. }
  split; [exact Hh|].
  destruct Hh as (Hps & Ha & Hnz & Habove).
  split; [|split; [|split]].
  - destruct (flags_filter linux 0x10000000 65536 0x22 demo_ready
                Hps Ha Hnz Habove) as (_ & Hknown & _).
    apply Hknown; vm_compute; intros Hc;
      first [discriminate Hc | apply Hc; reflexivity].
  - destruct (flags_filter linux 0x10000000 65536 0x20022 demo_ready
                Hps Ha Hnz Habove) as (_ & _ & Hother).
    apply Hother; [discriminate|].
    vm_compute. intros (_ & _ & _ & Hs). apply Hs. discriminate.
  - destruct (flags_filter linux 0x10000000 65536 0x21 demo_ready
                Hps Ha Hnz Habove) as (_ & _ & Hother).
    apply Hother; [discriminate|].
    vm_compute. intros (Hp & _). apply Hp. reflexivity.
  - destruct (flags_filter linux 0x10000000 65536 0x02 demo_ready
                Hps Ha Hnz Habove) as (_ & _ & Hother).
    apply Hother; [discriminate|].
    vm_compute. intros (_ & Han & _). apply Han. reflexivity.
Defined.

Lemma null_address_noop_witness :
  0 < page_size (globals demo_ready)
  /\ merge_if_profitable linux 0 1048576 (-1) demo_ready = Ret tt demo_ready.
Proof.
  split; [reflexivity|].
  apply (null_address_noop linux 1048576 (-1) demo_ready). reflexivity.
Defined.

Lemma page_rounding_witness :
  (0 < page_size (globals demo_zero)
   /\ in_size_t 0x10000064 /\ in_size_t 5000)
  /\ 0x10000064 mod page_size (globals demo_zero) = 100
  /\ page_address_of (globals demo_zero) 0x10000064 = 0x10000000
  /\ new_length_of (globals demo_zero) 0x10000064 5000 = 5100
  /\ 0x10000000 + 5100 = 0x10000064 + 5000
  /\ merge_if_profitable linux 0x10000064 5000 (-1) demo_zero
     = Ret tt (record (EvMadvise 0x10000000 5100 12) demo_zero).
Proof.
  assert (Hh : 0 < page_size (globals demo_zero)
               /\ in_size_t 0x10000064 /\ in_size_t 5000).
  { vm_compute. repeat split; try reflexivity; discriminate. }
  split; [exact Hh|].
  destruct Hh as (Hps & Ha & Hn).
  destruct (page_rounding linux 0x10000064 5000 (-1) demo_zero Hps Ha Hn)
    as (Hcall & Hstart & Hlen & _ & _ & Hfit & _).
  destruct (Hfit eq_refl) as (Hsum & _ & Hend).
  split; [reflexivity|].
  split; [rewrite Hstart; reflexivity|].
  split; [rewrite Hlen, Hsum; reflexivity|].
  split; [exact Hend|].
  destruct Hcall as [Hnone|Hdone].
  - exfalso. vm_compute in Hnone.
    apply (f_equal (fun o => match o with
                             | Ret _ st => List.length (trace st)
                             | _ => 0%nat
                             end)) in Hnone.
    discriminate Hnone.
  - rewrite Hdone. reflexivity.
Defined.

(** C4 as stated fails where the sum wraps.  With a threshold of 0
    (KSMP_MERGE_THRESHOLD=0), a block at 0x10000064 with a length of
    [SIZE_MAX] is advised as the 99 bytes from 0x10000000: that is not
    the requested length plus the offset, and the advised bytes end
    before the block begins. *)
Lemma wrapped_length_counterexample :
  in_size_t 0x10000064 /\ in_size_t (2 ^ 64 - 1)
  /\ page_size (globals demo_zero) = 4096
  /\ merge_if_profitable linux 0x10000064 (2 ^ 64 - 1) (-1) demo_zero
     = Ret tt (record (EvMadvise 0x10000000 99 12) demo_zero)
  /\ new_length_of (globals demo_zero) 0x10000064 (2 ^ 64 - 1)
     <> (2 ^ 64 - 1) + 0x10000064 mod page_size (globals demo_zero)
  /\ 0x10000000 + 99 < 0x10000064.
Proof.
  split; [vm_compute; split; [discriminate|reflexivity]|].
  split; [vm_compute; split; [discriminate|reflexivity]|].
  split; [reflexivity|].
  split; [vm_compute; reflexivity|].
  split; [vm_compute; discriminate|].
  vm_compute. reflexivity.
Qed.

(** The library makes that call on [calloc (0, SIZE_MAX)], which the
    real [calloc] answers with a block of no bytes: the wrapper passes
    [size] alone to [merge_if_profitable]. *)
Example calloc_size_max_runs :
  exists s,
    calloc linux (demo_host (Some "0") []) 1 0 (2 ^ 64 - 1)
           (initial_state (demo_host (Some "0") []) 0x10000064)
    = Ret 0x10000064 s
    /\ hd_error (trace s) = Some (EvMadvise 0x10000000 99 12).
Proof. eexists. split; vm_compute; reflexivity. Qed.

Lemma recursive_reentry_witness :
  mutex demo_in_setup = Some 1%nat
  /\ setup_done demo_in_setup = false
  /\ lazily_setup linux demo 1 demo_in_setup = Ret tt demo_in_setup.
Proof.
  split; [reflexivity|]. split; [reflexivity|].
  apply (recursive_reentry linux demo 1 demo_in_setup). reflexivity.
Defined.

(** A [malloc] made while thread 1 is inside [setup] goes to
    [__libc_malloc], the initial value of the pointer. *)
Example reentrant_malloc_runs :
  malloc linux demo 1 4096 demo_in_setup
  = Ret 0x10000064
        (record (EvMalloc (libc_malloc demo) 4096)
                (set_heap 0x10001064 demo_in_setup)).
Proof. reflexivity. Qed.

(** The same for [mremap] calls through the null pointer [globals]
    starts with. *)
Example reentrant_mremap_runs :
  mremap linux demo 1 0x10000000 4096 8192 1 [] demo_in_setup
  = Fault NullCall demo_in_setup.
Proof. reflexivity. Qed.

Lemma missing_symbol_is_fatal_witness :
  (In "mmap" hooked_symbols
   /\ dlsym demo_no_mmap (RTLD_NEXT linux) "mmap" = 0)
  /\ exists s',
       setup linux demo_no_mmap (initial_state demo_no_mmap 0x10000064)
       = Exit 1 "failed to load mmap : undefined symbol: mmap" s'
       /\ globals s' = initial_globals demo_no_mmap.
Proof.
  assert (Hh : In "mmap" hooked_symbols
               /\ dlsym demo_no_mmap (RTLD_NEXT linux) "mmap" = 0).
  { split; [simpl; tauto|reflexivity]. }
  split; [exact Hh|]. destruct Hh as [Hin Hz].
  destruct (missing_symbol_is_fatal linux demo_no_mmap "mmap"
              (initial_state demo_no_mmap 0x10000064) Hin Hz)
    as (missing & Hfm & _ & _ & _ & (s' & Hs & Hg & _) & _).
  vm_compute in Hfm. injection Hfm as <-.
  exists s'. split; [exact Hs|exact Hg].
Defined.

Lemma demo_empty_finds_all (symbol : string) :
  In symbol hooked_symbols ->
  dlsym demo_empty (RTLD_NEXT linux) symbol <> 0.
Proof.
  unfold hooked_symbols. cbn [In].
  intros [<-|[<-|[<-|[<-|[<-|[]]]]]]; vm_compute; discriminate.
Defined.

Lemma empty_string_threshold_witness :
  (getenv demo_empty MERGE_THRESHOLD_ENV_NAME = Some ""
   /\ forall symbol, In symbol hooked_symbols ->
                     dlsym demo_empty (RTLD_NEXT linux) symbol <> 0)
  /\ get_int_from_environment demo_empty MERGE_THRESHOLD_ENV_NAME
       (initial_state demo_empty 0x10000064)
     = Ret 0 (record (EvGetenv MERGE_THRESHOLD_ENV_NAME)
                     (initial_state demo_empty 0x10000064))
  /\ exists s',
       setup linux demo_empty (initial_state demo_empty 0x10000064)
       = Ret tt s'
       /\ merge_threshold (globals s') = 0.
Proof.
  split; [split; [reflexivity|exact demo_empty_finds_all]|].
  destruct (empty_string_threshold linux demo_empty
              (initial_state demo_empty 0x10000064)
              eq_refl demo_empty_finds_all)
    as (_ & Hget & s' & Hs & HT & _).
  split; [exact Hget|].
  exists s'. split; [exact Hs|exact HT].
Defined.

(** C7. At the empty string the parser does not give -1: the failing
    input of the claim.  [get_int_from_environment] returns 0 and
    [setup] replaces the default threshold of 32768 by 0. *)
Theorem empty_value_replaces_default :
  get_int_from_environment demo_empty MERGE_THRESHOLD_ENV_NAME
    (initial_state demo_empty 0x10000064)
  = Ret 0 (record (EvGetenv MERGE_THRESHOLD_ENV_NAME)
                  (initial_state demo_empty 0x10000064))
  /\ parse_int (Some "") <> -1
  /\ merge_threshold (initial_globals demo_empty) = 32768
  /\ setup linux demo_empty (initial_state demo_empty 0x10000064)
     = Ret tt (after_setup linux demo_empty
                           (initial_state demo_empty 0x10000064))
  /\ merge_threshold
       (globals (after_setup linux demo_empty
                             (initial_state demo_empty 0x10000064))) = 0.
Proof.
  split; [reflexivity|].
  split; [vm_compute; discriminate|].
  split; [reflexivity|].
  split; reflexivity.
Qed.

Lemma wrappers_transparent_witness :
  (lazily_setup linux demo 1 demo_initial = Ret tt demo_ready
   /\ 0 < page_size (globals demo_ready))
  /\ (exists s2, calloc linux demo 1 16 4096 demo_initial
                 = Ret 0x10000064 s2)
  /\ (exists s2, malloc linux demo 1 (2 ^ 41) demo_initial = Ret 0 s2)
  /\ (exists s2, mmap linux demo 1 0 65536 3 0x22 (-1) 0 demo_initial
                 = Ret 0x10000064 s2)
  /\ (exists s2, mremap linux demo 1 0x10000000 4096 8192 3 [0x20000000]
                        demo_initial
                 = Ret 0x20000000 s2)
  /\ (exists s2, realloc linux demo 1 0x10000064 100 demo_initial
                 = Ret 0x10000064 s2).
Proof.
  assert (Hh : lazily_setup linux demo 1 demo_initial = Ret tt demo_ready
               /\ 0 < page_size (globals demo_ready)).
  { split; reflexivity. }
  split; [exact Hh|]. destruct Hh as [Hls Hps].
  destruct (wrappers_transparent linux demo 1 demo_initial demo_ready Hls Hps)
    as (Hcalloc & Hmalloc & Hmmap & Hmremap & Hrealloc).
  split; [|split; [|split; [|split]]].
  - refine (Hcalloc 16 4096 _ _).
    + vm_compute. discriminate.
    + vm_compute. split; [discriminate|reflexivity].
  - refine (Hmalloc (2 ^ 41) _ _).
    + vm_compute. discriminate.
    + vm_compute. split; [discriminate|reflexivity].
  - refine (Hmmap 0 65536 3 0x22 (-1) 0 _ _).
    + vm_compute. discriminate.
    + vm_compute. split; [discriminate|reflexivity].
  - refine (Hmremap 0x10000000 4096 8192 3 [0x20000000] _ _ _).
    + vm_compute. discriminate.
    + discriminate.
    + vm_compute. split; [discriminate|reflexivity].
  - refine (Hrealloc 0x10000064 100 _ _).
    + vm_compute. discriminate.
    + vm_compute. split; [discriminate|reflexivity].
Defined.

Lemma variadic_remap_dispatch_witness :
  (lazily_setup linux demo 1 demo_initial = Ret tt demo_ready
   /\ ext_mremap (globals demo_ready) <> 0)
  /\ mremap linux demo 1 0x10000000 4096 8192 3 [0x20000000; 77]
            demo_initial
     = Ret 0x20000000
           (record (EvMremap (ext_mremap (globals demo_ready))
                             0x10000000 4096 8192 3 [0x20000000])
                   demo_ready)
  /\ mremap linux demo 1 0x10000000 4096 8192 1 [0x20000000; 77]
            demo_initial
     = Ret 0x10000064
           (record (EvMremap (ext_mremap (globals demo_ready))
                             0x10000000 4096 8192 1 [])
                   (set_heap 0x10002064 demo_ready)).
Proof.
  assert (Hh : lazily_setup linux demo 1 demo_initial = Ret tt demo_ready
               /\ ext_mremap (globals demo_ready) <> 0).
  { split; [reflexivity|vm_compute; discriminate]. }
  split; [exact Hh|]. destruct Hh as [Hls Hfn].
  split.
  - destruct (variadic_remap_dispatch linux demo 1 0x10000000 4096 8192 3
                [0x20000000; 77] demo_initial demo_ready Hls Hfn)
      as [Hfixed _].
    rewrite (Hfixed ltac:(vm_compute; discriminate) 0x20000000 [77] eq_refl).
    reflexivity.
  - destruct (variadic_remap_dispatch linux demo 1 0x10000000 4096 8192 1
                [0x20000000; 77] demo_initial demo_ready Hls Hfn)
      as [_ Hplain].
    destruct (Hplain ltac:(vm_compute; intros Hc; apply Hc; reflexivity))
      as [Hfour _].
    rewrite Hfour. reflexivity.
Defined.

(** * Further properties *)

(** ** Decimal values of the threshold *)

Lemma read_digits_uint (d : Decimal.uint) (acc : Z) :
  read_digits acc (NilEmpty.string_of_uint d) = (uint_value acc d, "").
Proof.
  revert acc. induction d; intros acc; cbn -[Z.mul Z.add];
    try rewrite IHd; try reflexivity.
  f_equal. f_equal. lia.
Qed.

Lemma of_uint_acc_value (d : Decimal.uint) (acc : positive) :
  Z.pos (Pos.of_uint_acc d acc) = uint_value (Z.pos acc) d.
Proof.
  revert acc. induction d; intros acc; cbn -[Z.mul Z.add Pos.mul Pos.add];
    try reflexivity; rewrite IHd; f_equal; lia.
Qed.

Lemma of_uint_value (d : Decimal.uint) :
  Z.of_N (N.of_uint d) = uint_value 0 d.
Proof.
  unfold N.of_uint.
  induction d; cbn -[Z.mul Z.add Pos.of_uint_acc];
    try reflexivity; try apply IHd;
    rewrite of_uint_acc_value; reflexivity.
Qed.

Lemma decimal_starts_with_digit (d : Decimal.uint) :
  starts_with_digit (NilZero.string_of_uint d) = true
  /\ skip_spaces (NilZero.string_of_uint d) = NilZero.string_of_uint d
  /\ read_sign (NilZero.string_of_uint d)
     = (false, NilZero.string_of_uint d).
Proof. destruct d; repeat split. Qed.

Lemma read_digits_decimal (n : Z) :
  0 <= n -> read_digits 0 (decimal n) = (n, "").
Proof.
  intros Hn. unfold decimal.
  assert (Hval : uint_value 0 (N.to_uint (Z.to_N n)) = n).
  { rewrite <- of_uint_value, DecimalN.Unsigned.of_to.
    apply Z2N.id. exact Hn. }
  destruct (N.to_uint (Z.to_N n));
    try (rewrite <- Hval; apply (read_digits_uint _ 0)).
  simpl in Hval. subst n. reflexivity.
Qed.

Lemma strtol_decimal (n : Z) :
  0 <= n -> strtol (decimal n) = (clamp_long n, "").
Proof.
  intros Hn. unfold strtol.
  destruct (decimal_starts_with_digit (N.to_uint (Z.to_N n)))
    as (Hd & Hs & Hg).
  fold (decimal n) in Hd, Hs, Hg.
  rewrite Hs, Hg, Hd, read_digits_decimal by exact Hn. reflexivity.
Qed.

Lemma strtol_minus_decimal (n : Z) :
  0 <= n -> strtol (String "-" (decimal n)) = (clamp_long (- n), "").
Proof.
  intros Hn. unfold strtol.
  change (skip_spaces (String "-" (decimal n))) with (String "-" (decimal n)).
  change (read_sign (String "-" (decimal n))) with (true, decimal n).
  destruct (decimal_starts_with_digit (N.to_uint (Z.to_N n)))
    as (Hd & _ & _).
  fold (decimal n) in Hd.
  rewrite Hd, read_digits_decimal by exact Hn. reflexivity.
Qed.

Lemma parse_int_decimal (n : Z) :
  0 <= n -> parse_int (Some (decimal n)) = Z.min n INT_MAX.
Proof.
  intros Hn. unfold parse_int. rewrite strtol_decimal by exact Hn.
  unfold clamp_long, LONG_MIN, LONG_MAX, INT_MAX. cbn [not_at_nul orb].
  destruct (Z.ltb_spec n (-9223372036854775808)); [lia|].
  destruct (Z.ltb_spec 9223372036854775807 n).
  - cbn. lia.
  - destruct (Z.ltb_spec n 0); [lia|].
    destruct (Z.ltb_spec 2147483647 n); lia.
Qed.

Lemma parse_int_minus_decimal (n : Z) :
  0 <= n ->
  parse_int (Some (String "-" (decimal n))) = if n =? 0 then 0 else -1.
Proof.
  intros Hn. unfold parse_int. rewrite strtol_minus_decimal by exact Hn.
  unfold clamp_long, LONG_MIN, LONG_MAX, INT_MAX. cbn [not_at_nul orb].
  destruct (Z.eqb_spec n 0) as [->|Hnz]; [reflexivity|].
  destruct (Z.ltb_spec (- n) (-9223372036854775808)); [reflexivity|].
  destruct (Z.ltb_spec 9223372036854775807 (- n)); [lia|].
  destruct (Z.ltb_spec (- n) 0); [reflexivity|lia].
Qed.

Section Numerals.

Context {H : Type}.
Variable P : platform.
Variable E : host H.

(** X1. A threshold written as a decimal number.  When
    KSMP_MERGE_THRESHOLD holds the decimal digits of a number [n] that is
    not negative, [get_int_from_environment] returns [n], or [INT_MAX]
    when [n] is larger, and a [setup] that finds its symbols stores that
    value as the merge threshold. *)
Theorem decimal_threshold_installed (n : Z) (s : state H) :
  0 <= n ->
  getenv E MERGE_THRESHOLD_ENV_NAME = Some (decimal n) ->
  (forall symbol, In symbol hooked_symbols ->
                  dlsym E (RTLD_NEXT P) symbol <> 0) ->
  get_int_from_environment E MERGE_THRESHOLD_ENV_NAME s
  = Ret (Z.min n INT_MAX) (record (EvGetenv MERGE_THRESHOLD_ENV_NAME) s)
  /\ setup P E s = Ret tt (after_setup P E s)
  /\ merge_threshold (globals (after_setup P E s)) = Z.min n INT_MAX.
Proof.
  intros Hn Henv Hall.
  pose proof (parse_int_decimal n Hn) as Hp.
  split; [|split].
  - unfold get_int_from_environment. rewrite Henv, Hp. reflexivity.
  - apply setup_resolved. exact Hall.
  - simpl. rewrite Henv, Hp.
    destruct (Z.leb_spec 0 (Z.min n INT_MAX)); [reflexivity|].
    unfold INT_MAX in *. lia.
Qed.

(** X2. A minus sign.  When KSMP_MERGE_THRESHOLD is a minus sign followed
    by the decimal digits of [n], the value is rejected (-1) and [setup]
    leaves the threshold as it was, unless [n] is 0: "-0" is taken as a
    threshold of 0. *)
Theorem minus_threshold_rejected (n : Z) (s : state H) :
  0 <= n ->
  getenv E MERGE_THRESHOLD_ENV_NAME = Some (String "-" (decimal n)) ->
  (forall symbol, In symbol hooked_symbols ->
                  dlsym E (RTLD_NEXT P) symbol <> 0) ->
  get_int_from_environment E MERGE_THRESHOLD_ENV_NAME s
  = Ret (if n =? 0 then 0 else -1)
        (record (EvGetenv MERGE_THRESHOLD_ENV_NAME) s)
  /\ setup P E s = Ret tt (after_setup P E s)
  /\ merge_threshold (globals (after_setup P E s))
     = if n =? 0 then 0 else merge_threshold (globals s).
Proof.
  intros Hn Henv Hall.
  pose proof (parse_int_minus_decimal n Hn) as Hp.
  split; [|split].
  - unfold get_int_from_environment. rewrite Henv, Hp. reflexivity.
  - apply setup_resolved. exact Hall.
  - simpl. rewrite Henv, Hp. destruct (n =? 0); reflexivity.
Qed.

End Numerals.

(** ** The initialiser, case by case *)

Section Initialisation.

Context {H : Type}.
Variable P : platform.
Variable E : host H.

Local Open Scope ksm_scope.

Ltac failing_lookup symbol :=
  destruct (Z.eqb_spec (dlsym E (RTLD_NEXT P) symbol) 0);
  cbn [negb];
  [intros [= <-]; unfold bind at 1; rewrite xdlsym_missing by assumption;
   reflexivity
  |unfold bind at 1; rewrite xdlsym_found by assumption].

(** Where [setup] stops when a symbol is missing. *)
Lemma setup_exit_state (missing : string) (s : state H) :
  first_missing P E = Some missing ->
  setup P E s
  = Exit 1 (load_failure missing (dlerror E missing))
         {| globals := globals s;
            setup_done := setup_done s;
            mutex := mutex s;
            heap := heap s;
            trace := rev (map (EvDlsym (RTLD_NEXT P))
                              (symbols_upto missing hooked_symbols))
                     ++ trace s |}.
Proof.
  unfold first_missing, hooked_symbols, find, nonzero, setup.
  failing_lookup "calloc".
  failing_lookup "malloc".
  failing_lookup "mmap".
  failing_lookup "mremap".
  failing_lookup "realloc".
  intros [=].
Qed.

(** [lazily_setup] in closed form. *)
Lemma lazily_setup_eq (tid : nat) (s : state H) :
  lazily_setup P E tid s
  = if setup_done s then Ret tt s
    else match mutex s with
         | Some owner => if Nat.eqb owner tid then Ret tt s else Block s
         | None =>
             match first_missing P E with
             | Some missing =>
                 Exit 1 (load_failure missing (dlerror E missing))
                      (failed_setup P tid missing s)
             | None => Ret tt (initialised P E s)
             end
         end.
Proof.
  destruct (setup_done s) eqn:Hd.
  - apply lazily_setup_done. exact Hd.
  - destruct (mutex s) as [owner|] eqn:Hm.
    + unfold lazily_setup. rewrite Hd. unfold bind at 1.
      unfold pthread_mutex_lock. rewrite Hm.
      destruct (Nat.eqb owner tid); reflexivity.
    + rewrite lazily_setup_first by assumption.
      destruct (first_missing P E) as [missing|] eqn:Hfm.
      * unfold bind at 1. unfold bind at 1.
        rewrite (setup_exit_state missing _ Hfm). reflexivity.
      * unfold bind at 1. unfold bind at 1.
        rewrite (setup_resolved P E _ (first_missing_none P E Hfm)).
        unfold bind, set_setup_done, pthread_mutex_unlock, initialised.
        cbn. rewrite Nat.eqb_refl, Hm. reflexivity.
Qed.

(** X3. The first call.  When nothing has been set up, the mutex is
    free and the loader finds the five symbols, [lazily_setup] returns
    with [setup_done] set, the mutex free again, the five pointers of
    [globals] equal to what [dlsym] gave (none of them null), the page
    size read from [sysconf], and exactly the seven calls of one [setup]
    added to the trace. *)
Theorem first_call_initialises (tid : nat) (s : state H) :
  setup_done s = false -> mutex s = None ->
  (forall symbol, In symbol hooked_symbols ->
                  dlsym E (RTLD_NEXT P) symbol <> 0) ->
  exists s',
    lazily_setup P E tid s = Ret tt s'
    /\ setup_done s' = true /\ mutex s' = None /\ heap s' = heap s
    /\ trace s' = (setup_trace P ++ trace s)%list
    /\ ext_calloc (globals s') = dlsym E (RTLD_NEXT P) "calloc"
    /\ ext_malloc (globals s') = dlsym E (RTLD_NEXT P) "malloc"
    /\ ext_mmap (globals s') = dlsym E (RTLD_NEXT P) "mmap"
    /\ ext_mremap (globals s') = dlsym E (RTLD_NEXT P) "mremap"
    /\ ext_realloc (globals s') = dlsym E (RTLD_NEXT P) "realloc"
    /\ ext_calloc (globals s') <> 0 /\ ext_malloc (globals s') <> 0
    /\ ext_mmap (globals s') <> 0 /\ ext_mremap (globals s') <> 0
    /\ ext_realloc (globals s') <> 0
    /\ page_size (globals s') = to_size_t (sysconf_pagesize E).
Proof.
  intros Hd Hm Hall.
  destruct (all_found_each P E Hall) as (Hc & Hma & Hmm & Hmr & Hr).
  exists (initialised P E s).
  rewrite lazily_setup_eq, Hd, Hm.
  destruct (first_missing P E) as [missing|] eqn:Hfm.
  - destruct (first_missing_sound P E missing Hfm) as [Hin Hz].
    exfalso. exact (Hall missing Hin Hz).
  - cbn. rewrite Hm. repeat split; assumption.
Qed.

(** X4. Once only.  Calling [lazily_setup] again when it has returned is
    the same as calling it once: [setup] is not run a second time.  This
    holds for a second call by the same thread in every state, and for a
    second call by any thread when the mutex was free. *)
Theorem lazily_setup_idempotent (tid : nat) (s : state H) :
  (lazily_setup P E tid ;;; lazily_setup P E tid) s = lazily_setup P E tid s
  /\ (mutex s = None ->
      forall tid',
        (lazily_setup P E tid ;;; lazily_setup P E tid') s
        = lazily_setup P E tid s).
Proof.
  assert (Hsame : forall tid',
             mutex s = None \/ tid' = tid ->
             (lazily_setup P E tid ;;; lazily_setup P E tid') s
             = lazily_setup P E tid s).
  { intros tid' Hcase. unfold bind.
    rewrite (lazily_setup_eq tid s).
    destruct (setup_done s) eqn:Hd.
    - apply lazily_setup_done. exact Hd.
    - destruct (mutex s) as [owner|] eqn:Hm.
      + destruct Hcase as [Hc| ->]; [discriminate|].
        destruct (Nat.eqb owner tid) eqn:Ho; [|reflexivity].
        rewrite lazily_setup_eq, Hd, Hm, Ho. reflexivity.
      + destruct (first_missing P E); [reflexivity|].
        apply lazily_setup_done. reflexivity. }
  split.
  - apply Hsame. right. reflexivity.
  - intros Hm tid'. apply Hsame. left. exact Hm.
Qed.

(** X5. What [lazily_setup] can do.  It never crashes.  When it returns,
    the mutex and the allocator are as it found them, and either nothing
    changed or [setup_done] is now set.  It waits exactly when [setup] has
    not been done and another thread holds the mutex, and then changes
    nothing; in particular it never waits once [setup_done] is set. *)
Theorem lazily_setup_discipline (tid : nat) (s : state H) :
  (forall why s', lazily_setup P E tid s <> Fault why s')
  /\ (forall s',
        lazily_setup P E tid s = Ret tt s' ->
        mutex s' = mutex s /\ heap s' = heap s
        /\ (s' = s \/ setup_done s' = true))
  /\ (forall s',
        lazily_setup P E tid s = Block s' <->
        s' = s /\ setup_done s = false
        /\ exists owner, mutex s = Some owner /\ owner <> tid).
Proof.
  rewrite lazily_setup_eq.
  destruct (setup_done s) eqn:Hd.
  - split; [discriminate|]. split.
    + intros s' [= <-]. auto.
    + intros s'. split; [discriminate|]. intros (_ & Hc & _). discriminate.
  - destruct (mutex s) as [owner|] eqn:Hm.
    + destruct (Nat.eqb_spec owner tid) as [->|Hne].
      * split; [discriminate|]. split.
        -- intros s' [= <-]. rewrite Hm. auto.
        -- intros s'. split; [discriminate|].
           intros (_ & _ & o & [= <-] & Ho). contradiction.
      * split; [discriminate|]. split; [discriminate|].
        intros s'. split.
        -- intros [= <-]. repeat split. exists owner. auto.
        -- intros (-> & _). reflexivity.
    + destruct (first_missing P E).
      * split; [discriminate|]. split; [discriminate|].
        intros s'. split; [discriminate|].
        intros (_ & _ & o & Ho & _). discriminate.
      * split; [discriminate|]. split.
        -- intros s' [= <-]. cbn. rewrite Hm. auto.
        -- intros s'. split; [discriminate|].
           intros (_ & _ & o & Ho & _). discriminate.
Qed.

End Initialisation.

(** ** The wrappers, call by call *)

Section Calls.

Context {H : Type}.
Variable P : platform.
Variable E : host H.

Local Open Scope ksm_scope.

(** [merge_if_profitable] touches nothing but the trace, to which it
    adds at most one [madvise]. *)
Lemma merge_if_profitable_frame (address length flags : Z) (s : state H) :
  let s' := final_state (merge_if_profitable P address length flags s) in
  globals s' = globals s /\ setup_done s' = setup_done s
  /\ mutex s' = mutex s /\ heap s' = heap s
  /\ (trace s' = trace s
      \/ exists addr len,
           trace s' = EvMadvise addr len (MADV_MERGEABLE P) :: trace s).
Proof.
  cbv zeta. unfold merge_if_profitable.
  destruct (page_size (globals s) =? 0); [cbn; auto 6|].
  destruct (negb _); [cbn; auto 6|].
  destruct (_ || _); [cbn; auto 6|].
  destruct (flags_allow P flags); cbn; [|auto 6].
  repeat split. right. eauto.
Qed.

Lemma delegate_frame (fn : Z) (e : event) (run : H -> Z * H)
    (length flags : Z) (s : state H) :
  is_setup_call e = false ->
  let s' := final_state (delegate P fn e run length flags s) in
  globals s' = globals s /\ setup_done s' = setup_done s
  /\ mutex s' = mutex s
  /\ filter is_setup_call (trace s') = filter is_setup_call (trace s).
Proof.
  intros He.
  assert (Hcases :
            delegate P fn e run length flags s = Fault NullCall s
            \/ exists res h,
                 delegate P fn e run length flags s
                 = bind (merge_if_profitable P res length flags)
                        (fun _ => ret res) (record e (set_heap h s))).
  { destruct (fn =? 0) eqn:Hfn.
    - left. unfold delegate, bind at 1, call. rewrite Hfn. reflexivity.
    - right. destruct (run (heap s)) as [res h] eqn:Hrun.
      exists res, h. unfold delegate, bind at 1, call.
      rewrite Hfn, Hrun. reflexivity. }
  destruct Hcases as [->|(res & h & ->)]; [cbn; repeat split|].
  pose proof (merge_if_profitable_frame res length flags
                (record e (set_heap h s))) as Hf.
  unfold bind, ret.
  destruct (merge_if_profitable P res length flags (record e (set_heap h s)))
    as [[] s2| | |];
    cbn in Hf |- *; destruct Hf as (Hg & Hd & Hm & _ & Ht);
    (repeat split; [exact Hg|exact Hd|exact Hm|]);
    (destruct Ht as [->|(addr & len & ->)]; cbn; rewrite He; reflexivity).
Qed.

(** The exact effect of the shared part when nothing can fail. *)
Lemma delegate_effect (fn : Z) (e : event) (run : H -> Z * H)
    (length flags : Z) (s : state H) :
  fn <> 0 -> 0 < page_size (globals s) ->
  in_size_t (fst (run (heap s))) ->
  delegate P fn e run length flags s
  = Ret (fst (run (heap s)))
        (judged P (fst (run (heap s))) length flags
                (delegated e (run (heap s)) s)).
Proof.
  intros Hfn Hps Hres. unfold delegate, bind at 1.
  rewrite call_eq by assumption.
  unfold bind. rewrite merge_if_profitable_eq by assumption.
  reflexivity.
Qed.

(** Every wrapper is [lazily_setup] followed by the shared part, or, for
    [mremap] with MREMAP_FIXED and no fifth argument, by a failing
    [va_arg]. *)
Lemma serve_after_setup (tid : nat) (r : request) (s s1 : state H) :
  lazily_setup P E tid s = Ret tt s1 ->
  serve P E tid r s = Fault VaArgMissing s1
  \/ exists fn e run length flags,
       is_setup_call e = false
       /\ serve P E tid r s = delegate P fn e run length flags s1.
Proof.
  intros Hls.
  destruct r as [nmemb size|size|addr length prot flags fd offset
                |oa ol nl flags va|addr size]; cbn [serve].
  - right.
    exists (ext_calloc (globals s1)),
      (EvCalloc (ext_calloc (globals s1)) nmemb size),
      (run_calloc E (ext_calloc (globals s1)) nmemb size), size, (-1).
    split; [reflexivity|].
    unfold calloc. unfold bind at 1. rewrite Hls. reflexivity.
  - right.
    exists (ext_malloc (globals s1)),
      (EvMalloc (ext_malloc (globals s1)) size),
      (run_malloc E (ext_malloc (globals s1)) size), size, (-1).
    split; [reflexivity|].
    unfold malloc. unfold bind at 1. rewrite Hls. reflexivity.
  - right.
    exists (ext_mmap (globals s1)),
      (EvMmap (ext_mmap (globals s1)) addr length prot flags fd offset),
      (run_mmap E (ext_mmap (globals s1)) addr length prot flags fd offset),
      length, flags.
    split; [reflexivity|].
    unfold mmap. unfold bind at 1. rewrite Hls. reflexivity.
  - destruct (nonzero (Z.land flags (MREMAP_FIXED P))) eqn:Hfixed.
    + destruct va as [|target rest].
      * left. unfold mremap. unfold bind at 1. rewrite Hls, Hfixed.
        reflexivity.
      * right.
        exists (ext_mremap (globals s1)),
          (EvMremap (ext_mremap (globals s1)) oa ol nl flags [target]),
          (run_mremap E (ext_mremap (globals s1)) oa ol nl flags [target]),
          nl, (-1).
        split; [reflexivity|].
        unfold mremap. unfold bind at 1. rewrite Hls, Hfixed. reflexivity.
    + right.
      exists (ext_mremap (globals s1)),
        (EvMremap (ext_mremap (globals s1)) oa ol nl flags []),
        (run_mremap E (ext_mremap (globals s1)) oa ol nl flags []),
        nl, (-1).
      split; [reflexivity|].
      unfold mremap. unfold bind at 1. rewrite Hls, Hfixed. reflexivity.
  - right.
    exists (ext_realloc (globals s1)),
      (EvRealloc (ext_realloc (globals s1)) addr size),
      (run_realloc E (ext_realloc (globals s1)) addr size), size, (-1).
    split; [reflexivity|].
    unfold realloc. unfold bind at 1. rewrite Hls. reflexivity.
Qed.

Lemma serve_frame (tid : nat) (r : request) (s s1 : state H) :
  lazily_setup P E tid s = Ret tt s1 ->
  let s' := final_state (serve P E tid r s) in
  globals s' = globals s1 /\ setup_done s' = setup_done s1
  /\ mutex s' = mutex s1
  /\ filter is_setup_call (trace s') = filter is_setup_call (trace s1).
Proof.
  intros Hls.
  destruct (serve_after_setup tid r s s1 Hls)
    as [->|(fn & e & run & length & flags & He & ->)].
  - cbn. repeat split.
  - apply (delegate_frame fn e run length flags s1 He).
Qed.

(** X6. A missing symbol stops every wrapper.  On the first call into
    the library, if the loader does not find one of the five symbols,
    each wrapper ends the process with exit status 1 and the message for
    the first missing symbol before it calls any allocation function:
    the allocator is untouched, [globals] is unchanged, and the only
    calls made are the lookups up to the missing symbol. *)
Theorem missing_symbol_stops_every_wrapper (missing : string)
    (tid : nat) (r : request) (s : state H) :
  setup_done s = false -> mutex s = None ->
  first_missing P E = Some missing ->
  serve P E tid r s
  = Exit 1 (load_failure missing (dlerror E missing))
         (failed_setup P tid missing s).
Proof.
  intros Hd Hm Hfm.
  destruct r; cbn [serve];
    unfold calloc, malloc, mmap, mremap, realloc;
    unfold bind at 1; rewrite lazily_setup_eq, Hd, Hm, Hfm; reflexivity.
Qed.

(** X7. Configuration is fixed after initialisation.  Once [setup_done]
    is set, a call of any wrapper, however it ends, leaves [globals]
    (the five pointers, the page size and the threshold), [setup_done]
    and the mutex as they were, and makes no call to the loader,
    [sysconf] or [getenv]. *)
Theorem configuration_immutable (tid : nat) (r : request) (s : state H) :
  setup_done s = true ->
  globals (final_state (serve P E tid r s)) = globals s
  /\ setup_done (final_state (serve P E tid r s)) = true
  /\ mutex (final_state (serve P E tid r s)) = mutex s
  /\ filter is_setup_call (trace (final_state (serve P E tid r s)))
     = filter is_setup_call (trace s).
Proof.
  intros Hd.
  destruct (serve_frame tid r s s (lazily_setup_done P E tid s Hd))
    as (Hg & Hdone & Hm & Ht).
  repeat split; try assumption. rewrite Hdone. exact Hd.
Qed.

(** X8. Calls made from inside [setup].  While a thread holds the mutex
    and [globals] still has its initial pointers, that thread's calls of
    [calloc], [malloc], [mmap] and [realloc] are served by
    [__libc_calloc], [__libc_malloc], [__mmap] and [__libc_realloc]:
    the wrapper returns their result, makes no call to the loader, and
    applies the merge policy with the page size and threshold of the
    moment. *)
Theorem reentrant_calls_use_libc (tid : nat) (s : state H) :
  mutex s = Some tid -> uses_defaults E (globals s) ->
  0 < page_size (globals s) ->
  (forall nmemb size,
      libc_calloc E <> 0 ->
      in_size_t (fst (run_calloc E (libc_calloc E) nmemb size (heap s))) ->
      calloc P E tid nmemb size s
      = Ret (fst (run_calloc E (libc_calloc E) nmemb size (heap s)))
            (judged P (fst (run_calloc E (libc_calloc E) nmemb size (heap s)))
                    size (-1)
                    (delegated (EvCalloc (libc_calloc E) nmemb size)
                               (run_calloc E (libc_calloc E) nmemb size
                                           (heap s)) s)))
  /\ (forall size,
      libc_malloc E <> 0 ->
      in_size_t (fst (run_malloc E (libc_malloc E) size (heap s))) ->
      malloc P E tid size s
      = Ret (fst (run_malloc E (libc_malloc E) size (heap s)))
            (judged P (fst (run_malloc E (libc_malloc E) size (heap s)))
                    size (-1)
                    (delegated (EvMalloc (libc_malloc E) size)
                               (run_malloc E (libc_malloc E) size (heap s))
                               s)))
  /\ (forall addr length prot flags fd offset,
      libc_mmap E <> 0 ->
      in_size_t (fst (run_mmap E (libc_mmap E) addr length prot flags fd
                               offset (heap s))) ->
      mmap P E tid addr length prot flags fd offset s
      = Ret (fst (run_mmap E (libc_mmap E) addr length prot flags fd offset
                           (heap s)))
            (judged P (fst (run_mmap E (libc_mmap E) addr length prot flags
                                     fd offset (heap s)))
                    length flags
                    (delegated (EvMmap (libc_mmap E) addr length prot flags
                                       fd offset)
                               (run_mmap E (libc_mmap E) addr length prot
                                         flags fd offset (heap s)) s)))
  /\ (forall addr size,
      libc_realloc E <> 0 ->
      in_size_t (fst (run_realloc E (libc_realloc E) addr size (heap s))) ->
      realloc P E tid addr size s
      = Ret (fst (run_realloc E (libc_realloc E) addr size (heap s)))
            (judged P (fst (run_realloc E (libc_realloc E) addr size
                                        (heap s)))
                    size (-1)
                    (delegated (EvRealloc (libc_realloc E) addr size)
                               (run_realloc E (libc_realloc E) addr size
                                            (heap s)) s))).
Proof.
  intros Hm (Hc & Hma & Hmm & _ & Hr) Hps.
  assert (Hls : lazily_setup P E tid s = Ret tt s).
  { rewrite lazily_setup_eq.
    destruct (setup_done s); [reflexivity|].
    rewrite Hm, Nat.eqb_refl. reflexivity. }
  split; [|split; [|split]].
  - intros nmemb size Hfn Hres.
    rewrite <- (delegate_effect (libc_calloc E)) by assumption.
    unfold calloc. unfold bind at 1. rewrite Hls.
    unfold bind at 1, get_globals. rewrite Hc. reflexivity.
  - intros size Hfn Hres.
    rewrite <- (delegate_effect (libc_malloc E)) by assumption.
    unfold malloc. unfold bind at 1. rewrite Hls.
    unfold bind at 1, get_globals. rewrite Hma. reflexivity.
  - intros addr length prot flags fd offset Hfn Hres.
    rewrite <- (delegate_effect (libc_mmap E)) by assumption.
    unfold mmap. unfold bind at 1. rewrite Hls.
    unfold bind at 1, get_globals. rewrite Hmm. reflexivity.
  - intros addr size Hfn Hres.
    rewrite <- (delegate_effect (libc_realloc E)) by assumption.
    unfold realloc. unfold bind at 1. rewrite Hls.
    unfold bind at 1, get_globals. rewrite Hr. reflexivity.
Qed.

(** X9. [mremap] from inside [setup].  The pointer to the real [mremap]
    starts as NULL and is only set by the last lines of [setup].  A call
    of [mremap] by the thread that holds the mutex before that (with its
    fifth argument present when MREMAP_FIXED asks for one) goes through
    the null pointer: the process dies there, without any [madvise]. *)
Theorem reentrant_mremap_faults (tid : nat)
    (old_address old_length new_length flags : Z) (va : list Z)
    (s : state H) :
  mutex s = Some tid -> ext_mremap (globals s) = 0 ->
  (includes flags (MREMAP_FIXED P) -> va <> []) ->
  mremap P E tid old_address old_length new_length flags va s
  = Fault NullCall s.
Proof.
  intros Hm Hnull Hva.
  assert (Hls : lazily_setup P E tid s = Ret tt s).
  { rewrite lazily_setup_eq.
    destruct (setup_done s); [reflexivity|].
    rewrite Hm, Nat.eqb_refl. reflexivity. }
  unfold mremap. unfold bind at 1. rewrite Hls.
  destruct (nonzero (Z.land flags (MREMAP_FIXED P))) eqn:Hfixed.
  - destruct va as [|target rest].
    + exfalso. apply Hva; [|reflexivity].
      apply includes_nonzero. exact Hfixed.
    + unfold bind at 1. unfold bind at 1. unfold va_arg.
      unfold bind at 1. unfold get_globals, call.
      rewrite Hnull. reflexivity.
  - unfold bind at 1. unfold bind at 1. unfold get_globals, call.
    rewrite Hnull. reflexivity.
Qed.

(** X10. [calloc] is judged by [size] alone.  The wrapper hands [size],
    not [nmemb * size], to the merge policy: when [size] plus the offset
    of the returned block in its page is within the threshold, no
    [madvise] is made however many elements were asked for; when it
    exceeds the threshold and the block is not null, the [madvise] is
    made, whatever [nmemb] is. *)
Theorem calloc_judged_by_size (tid : nat) (nmemb size : Z)
    (s s1 : state H) :
  lazily_setup P E tid s = Ret tt s1 ->
  ext_calloc (globals s1) <> 0 ->
  0 < page_size (globals s1) ->
  let fn := ext_calloc (globals s1) in
  let r := run_calloc E fn nmemb size (heap s1) in
  let called := delegated (EvCalloc fn nmemb size) r s1 in
  in_size_t (fst r) ->
  (new_length_of (globals s1) (fst r) size
     <= to_size_t (merge_threshold (globals s1)) ->
   calloc P E tid nmemb size s = Ret (fst r) called)
  /\ (to_size_t (merge_threshold (globals s1))
        < new_length_of (globals s1) (fst r) size ->
      fst r <> 0 ->
      calloc P E tid nmemb size s
      = Ret (fst r) (advise P (fst r) size called)).
Proof.
  intros Hls Hfn Hps fn r called Hres.
  assert (Heq : calloc P E tid nmemb size s
                = Ret (fst r) (judged P (fst r) size (-1) called)).
  { unfold called, r, fn.
    rewrite <- (delegate_effect (ext_calloc (globals s1))) by assumption.
    unfold calloc. unfold bind at 1. rewrite Hls. reflexivity. }
  rewrite Heq. unfold judged. cbn [globals called delegated record set_heap].
  split.
  - intros Hle. apply Z.leb_le in Hle. rewrite Hle. reflexivity.
  - intros Hgt Hnz. apply Z.leb_gt in Hgt. rewrite Hgt.
    destruct (Z.eqb_spec (fst r) 0); [contradiction|]. reflexivity.
Qed.

(** X11. A failed [mmap] is not recognised.  [merge_if_profitable] only
    looks for a null address, and the real [mmap] reports failure with
    [(void * ) -1].  When it does, the wrapper returns that value, and if
    the flags pass the filter and the extended length exceeds the
    threshold it still calls [madvise], on the last page of the address
    space. *)
Theorem failed_mmap_is_advised (tid : nat)
    (addr length prot flags fd offset : Z) (s s1 : state H) :
  lazily_setup P E tid s = Ret tt s1 ->
  ext_mmap (globals s1) <> 0 ->
  0 < page_size (globals s1) ->
  let fn := ext_mmap (globals s1) in
  let r := run_mmap E fn addr length prot flags fd offset (heap s1) in
  fst r = 2 ^ 64 - 1 ->
  flags_allow P flags = true ->
  to_size_t (merge_threshold (globals s1))
    < new_length_of (globals s1) (2 ^ 64 - 1) length ->
  mmap P E tid addr length prot flags fd offset s
  = Ret (2 ^ 64 - 1)
        (advise P (2 ^ 64 - 1) length
                (delegated (EvMmap fn addr length prot flags fd offset)
                           r s1)).
Proof.
  intros Hls Hfn Hps fn r Hfail Hfl Hgt.
  assert (Hres : in_size_t (fst r)).
  { rewrite Hfail. unfold in_size_t. lia. }
  assert (Heq : mmap P E tid addr length prot flags fd offset s
                = Ret (fst r)
                      (judged P (fst r) length flags
                              (delegated (EvMmap fn addr length prot flags
                                                 fd offset) r s1))).
  { unfold r, fn.
    rewrite <- (delegate_effect (ext_mmap (globals s1))) by assumption.
    unfold mmap. unfold bind at 1. rewrite Hls. reflexivity. }
  rewrite Heq, Hfail. unfold judged.
  cbn [globals delegated record set_heap].
  apply Z.leb_gt in Hgt. rewrite Hgt, Hfl. reflexivity.
Qed.

(** X12. No wrap-around with a threshold of a page or more.  When the
    threshold is at least the page size minus one - as with the built-in
    4096 and 32768 - a request whose extended length wraps around 2^64
    is never advised: every [madvise] that [merge_if_profitable] makes
    starts at the page of the address, has the requested length plus the
    offset as its length, and so covers the whole request. *)
Theorem advice_covers_request (address length flags : Z)
    (s s' : state H) :
  0 < page_size (globals s) ->
  page_size (globals s) - 1 <= merge_threshold (globals s) <= INT_MAX ->
  in_size_t address -> in_size_t length ->
  merge_if_profitable P address length flags s = Ret tt s' ->
  s' <> s ->
  let offset := address mod page_size (globals s) in
  length + offset < 2 ^ 64
  /\ s' = record (EvMadvise (address - offset) (length + offset)
                           (MADV_MERGEABLE P)) s.
Proof.
  intros Hps HT Ha Hn Hrun Hchanged offset.
  rewrite merge_if_profitable_eq in Hrun by assumption.
  injection Hrun as Hs'.
  destruct (page_floor address (page_size (globals s)) Hps (proj1 Ha))
    as (_ & Hoff & _).
  fold offset in Hoff.
  assert (HTs : to_size_t (merge_threshold (globals s))
                = merge_threshold (globals s)).
  { apply to_size_t_small. unfold in_size_t, INT_MAX in *. lia. }
  rewrite HTs in Hs'.
  rewrite (new_length_of_eq _ _ _ Hps Ha) in Hs'. fold offset in Hs'.
  destruct (Z.leb_spec (to_size_t (length + offset))
                       (merge_threshold (globals s))) as [Hle|Hgt];
    [cbn in Hs'; congruence|].
  destruct (address =? 0); [cbn in Hs'; congruence|].
  destruct (flags_allow P flags); [|cbn in Hs'; congruence].
  cbn in Hs'.
  assert (Hfit : length + offset < 2 ^ 64).
  { destruct (Z.lt_ge_cases (length + offset) (2 ^ 64)) as [|Hwrap];
      [assumption|].
    exfalso.
    assert (Hw : to_size_t (length + offset) = length + offset - 2 ^ 64).
    { unfold to_size_t.
      transitivity ((length + offset - 2 ^ 64 + 1 * 2 ^ 64) mod 2 ^ 64);
        [f_equal; lia|].
      rewrite Z_mod_plus_full. apply Z.mod_small.
      unfold in_size_t, INT_MAX in *. lia. }
    unfold in_size_t in *. lia. }
  split; [exact Hfit|].
  subst s'. unfold advise.
  rewrite page_address_of_eq, new_length_of_eq by assumption.
  fold offset. rewrite (to_size_t_small (length + offset)); [reflexivity|].
  unfold in_size_t in *. lia.
Qed.

End Calls.

(** ** Whole runs *)

Section Processes.

Context {H : Type}.
Variable P : platform.
Variable E : host H.

Local Open Scope ksm_scope.

(** A wrapper that returns has got past [lazily_setup]. *)
Lemma serve_needs_setup (tid : nat) (r : request) (res : Z)
    (s s' : state H) :
  serve P E tid r s = Ret res s' ->
  exists s1, lazily_setup P E tid s = Ret tt s1.
Proof.
  destruct r; cbn [serve];
    unfold calloc, malloc, mmap, mremap, realloc;
    unfold bind at 1;
    destruct (lazily_setup P E tid s) as [[] s1| | |];
    try discriminate; eauto.
Qed.

(** X13. Invariants of a run.  In every state a process reaches by
    calls of the five wrappers that returned, made one after the other
    by any threads: the mutex is free; the threshold is a non-negative
    [int]; if [setup_done] is not set nothing has happened yet; and if it
    is set, [globals] holds what the one [setup] stored from the initial
    values - five non-null pointers from the loader among them - and the
    trace shows the calls of exactly one [setup]. *)
Theorem reachable_invariant (h0 : H) (s : state H) :
  reachable P E h0 s ->
  mutex s = None
  /\ 0 <= merge_threshold (globals s) <= INT_MAX
  /\ (setup_done s = false -> s = initial_state E h0)
  /\ (setup_done s = true ->
      globals s = resolved_globals P E (initial_globals E)
      /\ filter is_setup_call (trace s) = setup_trace P
      /\ ext_calloc (globals s) <> 0 /\ ext_malloc (globals s) <> 0
      /\ ext_mmap (globals s) <> 0 /\ ext_mremap (globals s) <> 0
      /\ ext_realloc (globals s) <> 0).
Proof.
  induction 1 as [|s s' tid r res Hreach IH Hserve].
  - split; [reflexivity|]. split; [cbn; unfold INT_MAX; lia|].
    split; [reflexivity|]. discriminate.
  - destruct IH as (Hm & HT & Hfresh & Hdone).
    destruct (serve_needs_setup tid r res s s' Hserve) as [s1 Hls].
    pose proof (serve_frame P E tid r s s1 Hls) as Hframe.
    rewrite Hserve in Hframe. cbn [final_state] in Hframe.
    destruct Hframe as (Hg & Hd & Hmx & Htr).
    rewrite lazily_setup_eq in Hls.
    destruct (setup_done s) eqn:Hsd.
    + injection Hls as <-.
      destruct (Hdone eq_refl) as (Hgl & Hcalls & Hptrs).
      rewrite Hg, Hd, Hmx, Htr.
      split; [exact Hm|]. split; [exact HT|].
      split; [rewrite Hsd; discriminate|].
      intros _. split; [exact Hgl|]. split; [exact Hcalls|exact Hptrs].
    + rewrite Hm in Hls.
      destruct (first_missing P E) as [missing|] eqn:Hfm; [discriminate|].
      injection Hls as <-.
      rewrite (Hfresh eq_refl) in *.
      rewrite Hg, Hd, Hmx, Htr.
      split; [reflexivity|].
      split; [apply (setup_threshold_range P E (initial_state E h0));
              cbn; unfold INT_MAX; lia|].
      split; [discriminate|].
      intros _.
      destruct (all_found_each P E (first_missing_none P E Hfm))
        as (Hc & Hma & Hmm & Hmr & Hr).
      split; [reflexivity|]. split; [reflexivity|].
      repeat split; assumption.
Qed.



End Processes.

(** ** Concrete runs of the further properties *)

Lemma demo_host_finds_all (env : option string) (symbol : string) :
  In symbol hooked_symbols ->
  dlsym (demo_host env []) (RTLD_NEXT linux) symbol <> 0.
Proof.
  unfold hooked_symbols. cbn [In].
  intros [<-|[<-|[<-|[<-|[<-|[]]]]]]; vm_compute; discriminate.
Defined.

Lemma decimal_threshold_installed_witness :
  (0 <= 40000
   /\ getenv (demo_host (Some "40000") []) MERGE_THRESHOLD_ENV_NAME
      = Some (decimal 40000))
  /\ merge_threshold
       (globals (after_setup linux (demo_host (Some "40000") [])
                   (initial_state (demo_host (Some "40000") []) 0x10000064)))
     = 40000
  /\ merge_threshold
       (globals (after_setup linux (demo_host (Some "3000000000") [])
                   (initial_state (demo_host (Some "3000000000") [])
                                  0x10000064)))
     = 2147483647.
Proof.
  split; [split; [discriminate|reflexivity]|].
  split.
  - destruct (decimal_threshold_installed linux
                (demo_host (Some "40000") []) 40000
                (initial_state (demo_host (Some "40000") []) 0x10000064)
                ltac:(discriminate) eq_refl
                (demo_host_finds_all (Some "40000")))
      as (_ & _ & Hthreshold).
    rewrite Hthreshold. reflexivity.
  - destruct (decimal_threshold_installed linux
                (demo_host (Some "3000000000") []) 3000000000
                (initial_state (demo_host (Some "3000000000") [])
                               0x10000064)
                ltac:(discriminate) eq_refl
                (demo_host_finds_all (Some "3000000000")))
      as (_ & _ & Hthreshold).
    rewrite Hthreshold. reflexivity.
Defined.

Lemma minus_threshold_rejected_witness :
  (0 <= 5
   /\ getenv (demo_host (Some "-5") []) MERGE_THRESHOLD_ENV_NAME
      = Some (String "-" (decimal 5)))
  /\ get_int_from_environment (demo_host (Some "-5") [])
       MERGE_THRESHOLD_ENV_NAME
       (initial_state (demo_host (Some "-5") []) 0x10000064)
     = Ret (-1) (record (EvGetenv MERGE_THRESHOLD_ENV_NAME)
                        (initial_state (demo_host (Some "-5") [])
                                       0x10000064))
  /\ merge_threshold
       (globals (after_setup linux (demo_host (Some "-5") [])
                   (initial_state (demo_host (Some "-5") []) 0x10000064)))
     = 32768.
Proof.
  split; [split; [discriminate|reflexivity]|].
  destruct (minus_threshold_rejected linux (demo_host (Some "-5") []) 5
              (initial_state (demo_host (Some "-5") []) 0x10000064)
              ltac:(discriminate) eq_refl
              (demo_host_finds_all (Some "-5")))
    as (Hget & _ & Hthreshold).
  split; [exact Hget|]. rewrite Hthreshold. reflexivity.
Defined.

Lemma first_call_initialises_witness :
  (setup_done demo_initial = false /\ mutex demo_initial = None)
  /\ exists s',
       lazily_setup linux demo 1 demo_initial = Ret tt s'
       /\ setup_done s' = true /\ mutex s' = None
       /\ ext_mremap (globals s') <> 0
       /\ page_size (globals s') = 4096.
Proof.
  split; [split; reflexivity|].
  destruct (first_call_initialises linux demo 1 demo_initial
              eq_refl eq_refl (demo_host_finds_all None))
    as (s' & Hls & Hd & Hm & _ & _ & _ & _ & _ & _ & _ & _ & _ & _
        & Hmr & _ & Hps).
  exists s'. split; [exact Hls|]. split; [exact Hd|].
  split; [exact Hm|]. split; [exact Hmr|exact Hps].
Defined.

Lemma lazily_setup_idempotent_witness :
  mutex demo_initial = None
  /\ bind (lazily_setup linux demo 1) (fun _ => lazily_setup linux demo 2)
          demo_initial
     = Ret tt demo_ready.
Proof.
  split; [reflexivity|].
  destruct (lazily_setup_idempotent linux demo 1 demo_initial)
    as [_ Hany].
  rewrite (Hany eq_refl 2%nat). reflexivity.
Defined.

Lemma lazily_setup_discipline_witness :
  lazily_setup linux demo 2 demo_in_setup = Block demo_in_setup
  /\ mutex demo_ready = mutex demo_initial.
Proof.
  destruct (lazily_setup_discipline linux demo 2 demo_in_setup)
    as (_ & _ & Hblock).
  destruct (lazily_setup_discipline linux demo 1 demo_initial)
    as (_ & Hret & _).
  split.
  - apply Hblock. split; [reflexivity|]. split; [reflexivity|].
    exists 1%nat. split; [reflexivity|discriminate].
  - apply (Hret demo_ready). reflexivity.
Defined.

Lemma missing_symbol_stops_every_wrapper_witness :
  (setup_done (initial_state demo_no_mmap 0x10000064) = false
   /\ mutex (initial_state demo_no_mmap 0x10000064) = None
   /\ first_missing linux demo_no_mmap = Some "mmap")
  /\ serve linux demo_no_mmap 1 (Malloc 100)
           (initial_state demo_no_mmap 0x10000064)
     = Exit 1 "failed to load mmap : undefined symbol: mmap"
            {| globals := initial_globals demo_no_mmap;
               setup_done := false;
               mutex := Some 1%nat;
               heap := 0x10000064;
               trace := [EvDlsym (-1) "mmap"; EvDlsym (-1) "malloc";
                         EvDlsym (-1) "calloc"] |}.
Proof.
  split; [repeat split|].
  rewrite (missing_symbol_stops_every_wrapper linux demo_no_mmap "mmap" 1
             (Malloc 100) (initial_state demo_no_mmap 0x10000064)
             eq_refl eq_refl eq_refl).
  reflexivity.
Defined.

Lemma configuration_immutable_witness :
  setup_done demo_ready = true
  /\ globals (final_state (serve linux demo 7 (Calloc 16 65536) demo_ready))
     = globals demo_ready
  /\ filter is_setup_call
       (trace (final_state (serve linux demo 7 (Calloc 16 65536)
                                  demo_ready)))
     = setup_trace linux.
Proof.
  split; [reflexivity|].
  destruct (configuration_immutable linux demo 7 (Calloc 16 65536)
              demo_ready eq_refl) as (Hg & _ & _ & Ht).
  split; [exact Hg|]. rewrite Ht. reflexivity.
Defined.

Lemma reentrant_calls_use_libc_witness :
  (mutex demo_in_setup = Some 1%nat
   /\ uses_defaults demo (globals demo_in_setup)
   /\ 0 < page_size (globals demo_in_setup))
  /\ malloc linux demo 1 4096 demo_in_setup
     = Ret 0x10000064
           (record (EvMalloc (libc_malloc demo) 4096)
                   (set_heap 0x10001064 demo_in_setup)).
Proof.
  assert (Hh : mutex demo_in_setup = Some 1%nat
               /\ uses_defaults demo (globals demo_in_setup)
               /\ 0 < page_size (globals demo_in_setup)).
  { split; [reflexivity|]. split; [repeat split|reflexivity]. }
  split; [exact Hh|]. destruct Hh as (Hm & Hdef & Hps).
  destruct (reentrant_calls_use_libc linux demo 1 demo_in_setup
              Hm Hdef Hps) as (_ & Hmalloc & _).
  rewrite (Hmalloc 4096).
  - reflexivity.
  - vm_compute. discriminate.
  - vm_compute. split; [discriminate|reflexivity].
Defined.

Lemma reentrant_mremap_faults_witness :
  (mutex demo_in_setup = Some 1%nat
   /\ ext_mremap (globals demo_in_setup) = 0)
  /\ mremap linux demo 1 0x10000000 4096 8192 1 [] demo_in_setup
     = Fault NullCall demo_in_setup.
Proof.
  split; [split; reflexivity|].
  apply (reentrant_mremap_faults linux demo 1 0x10000000 4096 8192 1 []
           demo_in_setup eq_refl eq_refl).
  vm_compute. intros Hc. exfalso. apply Hc. reflexivity.
Defined.

Lemma calloc_judged_by_size_witness :
  (lazily_setup linux demo 1 demo_initial = Ret tt demo_ready
   /\ ext_calloc (globals demo_ready) <> 0
   /\ 0 < page_size (globals demo_ready)
   /\ in_size_t 0x10000064
   /\ new_length_of (globals demo_ready) 0x10000064 8
      <= to_size_t (merge_threshold (globals demo_ready)))
  /\ calloc linux demo 1 1000000 8 demo_initial
     = Ret 0x10000064
           (record (EvCalloc (ext_calloc (globals demo_ready)) 1000000 8)
                   (set_heap 0x107a1264 demo_ready)).
Proof.
  assert (Hh : lazily_setup linux demo 1 demo_initial = Ret tt demo_ready
               /\ ext_calloc (globals demo_ready) <> 0
               /\ 0 < page_size (globals demo_ready)
               /\ in_size_t 0x10000064
               /\ new_length_of (globals demo_ready) 0x10000064 8
                  <= to_size_t (merge_threshold (globals demo_ready))).
  { split; [reflexivity|]. vm_compute.
    repeat split; try reflexivity; discriminate. }
  split; [exact Hh|]. destruct Hh as (Hls & Hfn & Hps & Hres & Hle).
  destruct (calloc_judged_by_size linux demo 1 1000000 8 demo_initial
              demo_ready Hls Hfn Hps Hres) as [Hsmall _].
  rewrite (Hsmall Hle). reflexivity.
Defined.

Lemma failed_mmap_is_advised_witness :
  (lazily_setup linux demo_mmap_fails 1
     (initial_state demo_mmap_fails 0x10000064)
   = Ret tt (initialised linux demo_mmap_fails
               (initial_state demo_mmap_fails 0x10000064))
   /\ flags_allow linux 0x22 = true)
  /\ exists s',
       mmap linux demo_mmap_fails 1 0 65536 3 0x22 (-1) 0
            (initial_state demo_mmap_fails 0x10000064)
       = Ret (2 ^ 64 - 1) s'
       /\ hd_error (trace s')
          = Some (EvMadvise 0xfffffffffffff000 69631 12).
Proof.
  split; [split; reflexivity|].
  eexists. split.
  - apply (failed_mmap_is_advised linux demo_mmap_fails 1 0 65536 3 0x22
             (-1) 0 (initial_state demo_mmap_fails 0x10000064)
             (initialised linux demo_mmap_fails
                (initial_state demo_mmap_fails 0x10000064))).
    + reflexivity.
    + vm_compute. discriminate.
    + reflexivity.
    + reflexivity.
    + reflexivity.
    + reflexivity.
  - reflexivity.
Defined.

Lemma advice_covers_request_witness :
  (0 < page_size (globals demo_ready)
   /\ page_size (globals demo_ready) - 1
      <= merge_threshold (globals demo_ready) <= INT_MAX
   /\ in_size_t 0x10000064 /\ in_size_t 40000)
  /\ merge_if_profitable linux 0x10000064 40000 (-1) demo_ready
     = Ret tt (record (EvMadvise 0x10000000 40100 12) demo_ready)
  /\ 40000 + 0x10000064 mod page_size (globals demo_ready) < 2 ^ 64.
Proof.
  assert (Hh : 0 < page_size (globals demo_ready)
               /\ page_size (globals demo_ready) - 1
                  <= merge_threshold (globals demo_ready) <= INT_MAX
               /\ in_size_t 0x10000064 /\ in_size_t 40000).
  { vm_compute. repeat split; try reflexivity; discriminate. }
  split; [exact Hh|]. destruct Hh as (Hps & HT & Ha & Hn).
  assert (Hrun : merge_if_profitable linux 0x10000064 40000 (-1) demo_ready
                 = Ret tt (record (EvMadvise 0x10000000 40100 12)
                                  demo_ready)) by reflexivity.
  split; [exact Hrun|].
  apply (advice_covers_request linux 0x10000064 40000 (-1) demo_ready
           (record (EvMadvise 0x10000000 40100 12) demo_ready)
           Hps HT Ha Hn Hrun).
  apply record_neq.
Defined.

Lemma reachable_invariant_witness :
  reachable linux demo 0x10000064
            (final_state (serve linux demo 1 (Malloc 100) demo_initial))
  /\ globals (final_state (serve linux demo 1 (Malloc 100) demo_initial))
     = resolved_globals linux demo (initial_globals demo)
  /\ filter is_setup_call
       (trace (final_state (serve linux demo 1 (Malloc 100) demo_initial)))
     = setup_trace linux.
Proof.
  assert (Hreach : reachable linux demo 0x10000064
                     (final_state (serve linux demo 1 (Malloc 100)
                                         demo_initial))).
  { apply (reach_call linux demo 0x10000064 demo_initial _ 1%nat
             (Malloc 100) 0x10000064 (reach_start linux demo 0x10000064)).
    reflexivity. }
  split; [exact Hreach|].
  destruct (reachable_invariant linux demo 0x10000064 _ Hreach)
    as (_ & _ & _ & Hdone).
  destruct (Hdone eq_refl) as (Hg & Ht & _).
  split; [exact Hg|exact Ht].
Defined.

